(** * SRTM terrain importer: a shallow embedding of [__init__.py]

    The add-on reads a NASA SRTM [.hgt] tile (big-endian signed 16-bit
    samples forming a square grid), derives the tile's physical extent from
    the latitude written in the file name, and builds a displaced, textured
    plane in the host scene.

    Modelling conventions.
    - Python [float] values that come out of [math] ([pi], [cos], products of
      those) are idealised as real numbers ([R]): rounding is not modelled.
    - NumPy [int16] arithmetic is modelled on [Z] with its wrap-around
      written out ([wrap16]).
    - The [float64] array produced by NumPy's true division of two [int16]
      values is modelled by [float64]: an exact rational, a signed infinity
      or NaN (what IEEE division by zero produces); rounding of the quotient
      is not modelled.
    - Python [str] is modelled as a string of 8-bit characters; code points
      above 127 are neither digits nor white space here.
    - Python exceptions are values of [exn]; a computation that may raise is
      a [result]; code that also touches the host scene is a state-passing
      computation over [Host]. *)

From Stdlib Require Import ZArith QArith Qreduction Reals Lra Lia.
From Stdlib Require Import List String Ascii Strings.Byte Bool.
Import ListNotations.

Local Open Scope Z_scope.

(** ** Python results and exceptions *)

Module Py.

Inductive exn : Type :=
| FileNotFoundError (path : string)
| ValueError_reshape (n : Z) (rows cols : Z)
    (* cannot reshape array of size n into shape (rows, cols) *)
| ValueError_int_literal (s : string)
    (* invalid literal for int() with base 10 *)
| ValueError_zero_size (op : string)
    (* zero-size array to reduction operation op which has no identity *)
| IndexError_string
    (* string index out of range *)
| UnboundLocalError (var : string).

Inductive result (A : Type) : Type :=
| Ok (a : A)
| Raise (e : exn).
Arguments Ok {A} a.
Arguments Raise {A} e.

Definition bind {A B} (r : result A) (k : A -> result B) : result B :=
  match r with
  | Ok a => k a
  | Raise e => Raise e
  end.


(** *** Strings: slicing, indexing, [int()], [os.path] *)

(** [s[i:j]] for [0 <= i <= j]: out-of-range bounds are clipped. *)
Definition slice (s : string) (i j : nat) : string :=
  substring i (j - i) s.

(** [s[i]] raises [IndexError] past the end. *)
Definition index (s : string) (i : nat) : result ascii :=
  match String.get i s with
  | Some c => Ok c
  | None => Raise IndexError_string
  end.

(** White space stripped by [int()]: TAB..CR, FS..US and SPACE. *)
Definition is_space (c : ascii) : bool :=
  let n := nat_of_ascii c in
  ((9 <=? n) && (n <=? 13) || (28 <=? n) && (n <=? 32))%nat.

Definition is_digit (c : ascii) : bool :=
  let n := nat_of_ascii c in ((48 <=? n) && (n <=? 57))%nat.

Definition digit_val (c : ascii) : Z := Z.of_nat (nat_of_ascii c) - 48.

Fixpoint lstrip (s : list ascii) : list ascii :=
  match s with
  | c :: rest => if is_space c then lstrip rest else s
  | [] => []
  end.

Definition strip (s : list ascii) : list ascii :=
  rev (lstrip (rev (lstrip s))).

(** Decimal digits with single underscores allowed between digits. *)
Fixpoint parse_digits (acc : Z) (after_digit : bool) (s : list ascii)
  : option Z :=
  match s with
  | [] => if after_digit then Some acc else None
  | c :: rest =>
      if is_digit c then parse_digits (10 * acc + digit_val c) true rest
      else if Ascii.eqb c "_"
           then (if after_digit then parse_digits acc false rest else None)
           else None
  end.

(** The value of a string of decimal digits, most significant first. *)
Definition decimal_from (acc : Z) (ds : list ascii) : Z :=
  fold_left (fun a c => 10 * a + digit_val c) ds acc.

Definition parse_int (s : list ascii) : option Z :=
  match strip s with
  | c :: ds =>
      if Ascii.eqb c "-" then option_map Z.opp (parse_digits 0 false ds)
      else if Ascii.eqb c "+" then parse_digits 0 false ds
      else parse_digits 0 false (c :: ds)
  | [] => None
  end.

(** [int(s)] for a string argument, base 10. *)
Definition int (s : string) : result Z :=
  match parse_int (list_ascii_of_string s) with
  | Some v => Ok v
  | None => Raise (ValueError_int_literal s)
  end.

(** [os.path.basename] (POSIX flavour): what follows the last slash. *)
Fixpoint basename_aux (cur : string) (s : string) : string :=
  match s with
  | EmptyString => cur
  | String c rest =>
      if Ascii.eqb c "/" then basename_aux rest rest
      else basename_aux cur rest
  end.

Definition basename (path : string) : string := basename_aux path path.

(** [os.path.splitext(p)[0]]: the name up to its last dot, leading dots of
    the name not counting as an extension separator.  The path is scanned
    from its end; [all_dots] looks at what precedes the dot, back to the
    last slash. *)
Fixpoint all_dots (s : list ascii) : bool :=
  match s with
  | [] => true
  | c :: rest =>
      if Ascii.eqb c "/" then true else Ascii.eqb c "." && all_dots rest
  end.

Fixpoint drop_ext_rev (r : list ascii) : option (list ascii) :=
  match r with
  | [] => None
  | c :: rest =>
      if Ascii.eqb c "." then (if all_dots rest then None else Some rest)
      else if Ascii.eqb c "/" then None
      else drop_ext_rev rest
  end.

Definition splitext_root (p : string) : string :=
  match drop_ext_rev (rev (list_ascii_of_string p)) with
  | Some r => string_of_list_ascii (rev r)
  | None => p
  end.

End Py.

(** ** The fragment of NumPy the add-on uses *)

Module Np.
Import Py.

(** One big-endian signed 16-bit sample ([dtype='>i2']). *)
Definition be_i16 (hi lo : byte) : Z :=
  let u := Z.of_N (Byte.to_N hi) * 256 + Z.of_N (Byte.to_N lo) in
  if u <? 32768 then u else u - 65536.

(** [np.fromfile] on the bytes of a file: whole items only, a trailing odd
    byte is not an item. *)
Fixpoint decode_i16 (bs : list byte) : list Z :=
  match bs with
  | hi :: lo :: rest => be_i16 hi lo :: decode_i16 rest
  | _ => []
  end.

(** [int(np.sqrt(n))] for an element count [n]: the square root is taken in
    double precision and truncated; for counts below 2^52 that is the integer
    square root. *)
Definition int_sqrt (n : Z) : Z := Z.sqrt n.

Fixpoint rows_of (r c : nat) (data : list Z) : list (list Z) :=
  match r with
  | O => []
  | S r' => firstn c data :: rows_of r' c (skipn c data)
  end.

(** [data.reshape((r, c))]: a [ValueError] unless [r * c] is the size. *)
Definition reshape (data : list Z) (r c : Z) : result (list (list Z)) :=
  if r * c =? Z.of_nat (List.length data)
  then Ok (rows_of (Z.to_nat r) (Z.to_nat c) data)
  else Raise (ValueError_reshape (Z.of_nat (List.length data)) r c).

(** [a.min()] and [a.max()]: reductions without identity. *)
Definition amin (a : list (list Z)) : result Z :=
  match List.concat a with
  | [] => Raise (ValueError_zero_size "minimum")
  | x :: xs => Ok (fold_left Z.min xs x)
  end.

Definition amax (a : list (list Z)) : result Z :=
  match List.concat a with
  | [] => Raise (ValueError_zero_size "maximum")
  | x :: xs => Ok (fold_left Z.max xs x)
  end.

(** Result of an [int16] operation: reduced into [-32768, 32767]. *)
Definition wrap16 (z : Z) : Z := (z + 32768) mod 65536 - 32768.

Definition sub_i16 (a b : Z) : Z := wrap16 (a - b).

(** Elements of a [float64] array. *)
Inductive float64 : Type :=
| FNum (q : Q)
| FInf (negative : bool)
| FNaN.

(** [n / d] on two [int16] values: true division in double precision. *)
Definition true_divide (n d : Z) : float64 :=
  if d =? 0
  then (if n =? 0 then FNaN else FInf (n <? 0))
  else FNum (Qred (inject_Z n / inject_Z d)).

Definition in_unit_interval (x : float64) : bool :=
  match x with
  | FNum q => Qle_bool 0 q && Qle_bool q 1
  | _ => false
  end.

Definition is_nan (x : float64) : bool :=
  match x with FNaN => true | _ => false end.

Definition feqb (x : float64) (q : Q) : bool :=
  match x with
  | FNum p => Qeq_bool p q
  | _ => false
  end.

End Np.

(** ** Tile geometry *)

Definition EARTH_RADIUS : Z := 6378137.

(** [math.radians(x)]: [x * (pi / 180)]. *)
Definition math_radians (x : R) : R := (x * (PI / 180))%R.

(** [get_tile_dimensions(lat)]: east-west and north-south extent in metres
    of a one-degree tile at latitude [lat] (degrees). *)
Definition get_tile_dimensions (lat : R) : R * R :=
  let lat_rad := math_radians lat in
  let ns_distance := (PI * IZR EARTH_RADIUS / 180)%R in
  let ew_distance := (ns_distance * cos lat_rad)%R in
  (ew_distance, ns_distance).

Import Py Np.

(** ** The host application, as far as the add-on touches it *)

Module Host.

Record Space := mkSpace {
  space_type : string;
  clip_start : R;
  clip_end : R }.

Record Area := mkArea {
  area_type : string;
  spaces : list Space }.

Record Screen := mkScreen { areas : list Area }.

Record Image := mkImage {
  image_name : string;
  image_width : Z;
  image_height : Z;
  pixels : list float64 }.

(** Shader nodes, named after the variables that hold them in
    [create_terrain_material]. *)
Inductive node : Type :=
| output | principled_bsdf | geometry | separate_xyz | map_range
| color_ramp | displacement | texture
| value_min | value_max | value_scale_z
| math_height_range | math_min_div10 | math_max_div10
| math_displacement_scale.

Inductive socket : Type :=
| Named (s : string)
| Indexed (i : nat).

Record Link := mkLink {
  from_node : node; from_socket : socket;
  to_node : node; to_socket : socket }.

Definition rgba : Type := R * R * R * R.

Record Material := mkMaterial {
  material_name : string;
  texture_image : Image;
  input_defaults : list (node * socket * R);
  output_defaults : list (node * R);
  operations : list (node * string);
  displacement_space : string;
  map_range_clamp : bool;
  ramp_elements : list (R * rgba);
  ramp_interpolation : string;
  links : list Link;
  cycles_displacement_method : string;
  displacement_method : string }.

Record Modifier := mkModifier {
  modifier_name : string;
  modifier_type : string;
  subdivision_type : string;
  levels : Z;
  render_levels : Z }.

Inductive prop : Type :=
| PInt (z : Z)
| PFloat (x : R).

Record Object := mkObject {
  name : string;
  location_x : R;
  location_y : R;
  scale_x : R;
  scale_y : R;
  modifiers : list Modifier;
  number_cuts : list Z;
  materials : list Material;
  props : list (string * prop) }.

(** The scene, the data blocks and the files the add-on works on;
    [operator_reports] holds what the add-on passes to [Operator.report]. *)
Record state := mkHost {
  files : string -> option (list byte);
  screens : list Screen;
  objects : list Object;
  active_object : option nat;
  selected : list nat;
  mode : string;
  images : list Image;
  data_materials : list Material;
  operator_reports : list (string * string) }.

(** Computations over the host that may raise. *)
Definition M (A : Type) : Type := state -> result A * state.

Definition ret {A} (a : A) : M A := fun h => (Ok a, h).

Definition mbind {A B} (m : M A) (k : A -> M B) : M B :=
  fun h =>
    match m h with
    | (Ok a, h') => k a h'
    | (Raise e, h') => (Raise e, h')
    end.

Definition lift {A} (r : result A) : M A := fun h => (r, h).

Definition modify (f : state -> state) : M unit := fun h => (Ok tt, f h).

Definition outcome {A} (m : M A) (h : state) : result A := fst (m h).

End Host.

Import Host.

Declare Scope host_scope.
Delimit Scope host_scope with host.
Notation "x <- m ;; k" := (mbind m (fun x => k))
  (at level 61, m at next level, right associativity) : host_scope.
Notation "m ;; k" := (mbind m (fun _ => k))
  (at level 61, right associativity) : host_scope.
Local Open Scope host_scope.

Definition node_eqb (a b : node) : bool :=
  match a, b with
  | output, output | principled_bsdf, principled_bsdf
  | geometry, geometry | separate_xyz, separate_xyz
  | map_range, map_range | color_ramp, color_ramp
  | displacement, displacement | texture, texture
  | value_min, value_min | value_max, value_max
  | value_scale_z, value_scale_z
  | math_height_range, math_height_range
  | math_min_div10, math_min_div10
  | math_max_div10, math_max_div10
  | math_displacement_scale, math_displacement_scale => true
  | _, _ => false
  end.

Definition socket_eqb (a b : socket) : bool :=
  match a, b with
  | Named s, Named s' => String.eqb s s'
  | Indexed i, Indexed i' => Nat.eqb i i'
  | _, _ => false
  end.

(** *** Host operations *)

Definition set_nth {A} (i : nat) (f : A -> A) (l : list A) : list A :=
  firstn i l ++ match skipn i l with
                | x :: rest => f x :: rest
                | [] => []
                end.

(** Assignment to an attribute of the object behind a reference. *)
Definition update_object (i : nat) (f : Object -> Object) : M unit :=
  modify (fun h =>
    mkHost (files h) (screens h) (set_nth i f (objects h)) (active_object h)
           (selected h) (mode h) (images h) (data_materials h) (operator_reports h)).

(** [bpy.ops.mesh.primitive_plane_add(size=1)] followed by
    [bpy.context.active_object]: a new unit plane, active and selected. *)
Definition primitive_plane_add : M nat :=
  fun h =>
    let i := List.length (objects h) in
    let plane := mkObject "Plane" 0 0 1 1 [] [] [] [] in
    (Ok i, mkHost (files h) (screens h) (objects h ++ [plane]) (Some i)
                  [i] (mode h) (images h) (data_materials h) (operator_reports h)).

Definition mode_set (m : string) : M unit :=
  modify (fun h =>
    mkHost (files h) (screens h) (objects h) (active_object h)
           (selected h) m (images h) (data_materials h) (operator_reports h)).

Definition get_object (i : nat) : M Object :=
  fun h => (Ok (nth i (objects h) (mkObject "" 0 0 1 1 [] [] [] [])), h).

(** [bpy.data.images.new(...)] then [texture.pixels = pixels]. *)
Definition images_new (img : Image) : M Image :=
  fun h =>
    (Ok img, mkHost (files h) (screens h) (objects h) (active_object h)
                    (selected h) (mode h) (images h ++ [img]) (data_materials h) (operator_reports h)).

Definition select_all_deselect : M unit :=
  modify (fun h =>
    mkHost (files h) (screens h) (objects h) (active_object h)
           [] (mode h) (images h) (data_materials h) (operator_reports h)).

Definition select_set_true (i : nat) : M unit :=
  modify (fun h =>
    mkHost (files h) (screens h) (objects h) (active_object h)
           (i :: selected h) (mode h) (images h) (data_materials h) (operator_reports h)).

Definition set_active (i : nat) : M unit :=
  modify (fun h =>
    mkHost (files h) (screens h) (objects h) (Some i)
           (selected h) (mode h) (images h) (data_materials h) (operator_reports h)).

(** [np.fromfile(filepath, dtype='>i2')]. *)
Definition np_fromfile (filepath : string) : M (list Z) :=
  fun h =>
    match files h filepath with
    | Some bs => (Ok (decode_i16 bs), h)
    | None => (Raise (FileNotFoundError filepath), h)
    end.

(** [bpy.data.materials.new(...)], recorded once the material is built. *)
Definition materials_new (m : Material) : M Material :=
  fun h =>
    (Ok m, mkHost (files h) (screens h) (objects h) (active_object h)
                  (selected h) (mode h) (images h) (data_materials h ++ [m])
                  (operator_reports h)).

(** ** The add-on *)

(** [setup_3d_views()]: clip distances of every 3D viewport. *)
Definition setup_3d_views : M unit :=
  modify (fun h =>
    mkHost (files h)
      (map (fun screen =>
         mkScreen (map (fun area =>
           if String.eqb (area_type area) "VIEW_3D"
           then mkArea (area_type area)
                  (map (fun space =>
                     if String.eqb (space_type space) "VIEW_3D"
                     then mkSpace (space_type space) 1 1000000
                     else space) (spaces area))
           else area) (areas screen))) (screens h))
      (objects h) (active_object h) (selected h) (mode h) (images h)
      (data_materials h) (operator_reports h)).

(** Line 74: [(heightmap - height_min) / (height_max - height_min)].  Both
    subtractions are [int16] operations (array minus scalar, scalar minus
    scalar); the division is true division into [float64]. *)
Definition heightmap_normalized (heightmap : list (list Z))
    (height_min height_max : Z) : list (list float64) :=
  map (map (fun h =>
         true_divide (sub_i16 h height_min) (sub_i16 height_max height_min)))
      heightmap.

(** Lines 77-80: four channels per sample, row by row. *)
Definition texture_pixels (size : nat) (normalized : list (list float64))
  : list float64 :=
  flat_map (fun y =>
    flat_map (fun x =>
      [nth x (nth y normalized []) FNaN; FNum 0; FNum 0; FNum 1])
      (seq 0 size))
    (seq 0 size).

(** [create_heightmap_texture(context, heightmap, name)]. *)
Definition create_heightmap_texture (heightmap : list (list Z))
    (name : string) : M Image :=
  let size := List.length heightmap in
  height_min <- lift (amin heightmap) ;;
  height_max <- lift (amax heightmap) ;;
  let normalized := heightmap_normalized heightmap height_min height_max in
  images_new (mkImage (name ++ "_height")%string (Z.of_nat size) (Z.of_nat size)
                      (texture_pixels size normalized)).

(** The [color_scheme] enumeration of the operator. *)
Inductive color_scheme : Type :=
| scheme_default
| scheme_grayscale.

Definition ramp_colors (scheme : color_scheme) : list (R * rgba) :=
  match scheme with
  | scheme_default =>
      [ (0, (0, 0.078, 0.153, 1));
        (0.25, (0.439, 0.553, 0.506, 1));
        (0.5, (0.957, 0.835, 0.553, 1));
        (0.75, (0.749, 0.024, 0.012, 1));
        (1, (0.553, 0.031, 0.004, 1)) ]%R
  | scheme_grayscale =>
      [ (0, (0.1, 0.1, 0.1, 1));
        (0.33, (0.3, 0.3, 0.3, 1));
        (0.66, (0.6, 0.6, 0.6, 1));
        (1, (0.9, 0.9, 0.9, 1)) ]%R
  end.

(** The links made by [create_terrain_material], in source order. *)
Definition material_links : list Link :=
  [ mkLink value_min (Indexed 0) math_height_range (Indexed 1);
    mkLink value_max (Indexed 0) math_height_range (Indexed 0);
    mkLink value_min (Indexed 0) math_min_div10 (Indexed 0);
    mkLink value_max (Indexed 0) math_max_div10 (Indexed 0);
    mkLink math_height_range (Indexed 0) math_displacement_scale (Indexed 0);
    mkLink value_scale_z (Indexed 0) math_displacement_scale (Indexed 1);
    mkLink math_displacement_scale (Indexed 0) displacement (Named "Scale");
    mkLink math_min_div10 (Indexed 0) map_range (Named "From Min");
    mkLink math_max_div10 (Indexed 0) map_range (Named "From Max");
    mkLink geometry (Named "Position") separate_xyz (Named "Vector");
    mkLink separate_xyz (Named "Z") map_range (Indexed 0);
    mkLink map_range (Indexed 0) color_ramp (Indexed 0);
    mkLink color_ramp (Named "Color") principled_bsdf (Named "Base Color");
    mkLink principled_bsdf (Named "BSDF") output (Named "Surface");
    mkLink texture (Named "Color") displacement (Named "Height");
    mkLink displacement (Named "Displacement") output (Named "Displacement") ].

(** The material assembled by [create_terrain_material(...)].  Node labels,
    editor positions and the debug printout are not part of the model. *)
Definition terrain_material (name : string) (height_texture : Image)
    (dem_min dem_max width height scale_z : R) (scheme : color_scheme)
  : Material :=
     mkMaterial (name ++ "_material")%string
       height_texture
       [ (principled_bsdf, Named "Metallic", 0);
         (principled_bsdf, Named "Roughness", 0.461);
         (principled_bsdf, Named "IOR", 1.5);
         (principled_bsdf, Named "Alpha", 1);
         (math_min_div10, Indexed 1, 10);
         (math_max_div10, Indexed 1, 10);
         (displacement, Named "Midlevel", 0);
         (map_range, Named "To Min", 0);
         (map_range, Named "To Max", 1) ]%R
       [ (value_min, dem_min); (value_max, dem_max);
         (value_scale_z, scale_z) ]
       [ (math_height_range, "SUBTRACT"); (math_min_div10, "DIVIDE");
         (math_max_div10, "DIVIDE"); (math_displacement_scale, "MULTIPLY") ]%string
       "OBJECT" true
       (ramp_colors scheme) "LINEAR"
       material_links
       "DISPLACEMENT" "DISPLACEMENT".

Definition create_terrain_material (name : string) (height_texture : Image)
    (dem_min dem_max width height scale_z : R) (scheme : color_scheme)
  : M Material :=
  materials_new
    (terrain_material name height_texture dem_min dem_max width height
                      scale_z scheme).

(** Lines 239-241: read the file and shape it into a square grid. *)
Definition read_heightmap (filepath : string) : M (list (list Z)) :=
  data <- np_fromfile filepath ;;
  let size := int_sqrt (Z.of_nat (List.length data)) in
  lift (reshape data size size).

(** Lines 245-250: the tile's south-west corner, from the base name. *)
Definition tile_coordinates (basename : string) : result (Z * Z) :=
  Py.bind (Py.int (slice basename 1 3)) (fun lat =>
  Py.bind (Py.int (slice basename 4 7)) (fun lon =>
  Py.bind (Py.index basename 0) (fun c0 =>
  let lat := if Ascii.eqb c0 "S" then - lat else lat in
  Py.bind (Py.index basename 3) (fun c3 =>
  let lon := if Ascii.eqb c3 "W" then - lon else lon in
  Ok (lat, lon))))).

Definition set_prop (k : string) (v : prop) (o : Object) : Object :=
  mkObject (name o) (location_x o) (location_y o) (scale_x o) (scale_y o)
           (modifiers o) (number_cuts o) (materials o)
           (filter (fun kv => negb (String.eqb (fst kv) k)) (props o)
              ++ [(k, v)]).

(** [create_terrain_from_hgt(filepath, subdivisions, scale_z, color_scheme)];
    the result is the reference to the new plane. *)
Definition create_terrain_from_hgt (filepath : string) (subdivisions : Z)
    (scale_z : R) (scheme : color_scheme) : M nat :=
  heightmap <- read_heightmap filepath ;;
  let basename := Py.basename filepath in
  coords <- lift (tile_coordinates basename) ;;
  let lat := fst coords in
  let lon := snd coords in
  let width := fst (get_tile_dimensions (IZR lat)) in
  let height := snd (get_tile_dimensions (IZR lat)) in
  plane <- primitive_plane_add ;;
  update_object plane (fun o =>
    mkObject (splitext_root basename)
             (width * IZR lon)%R (height * IZR lat)%R width height
             (modifiers o ++ [mkModifier "Subdivisions" "SUBSURF" "SIMPLE" 2 2])
             (number_cuts o) (materials o) (props o)) ;;
  mode_set "EDIT" ;;
  update_object plane (fun o =>
    mkObject (name o) (location_x o) (location_y o) (scale_x o) (scale_y o)
             (modifiers o) (number_cuts o ++ [subdivisions]) (materials o)
             (props o)) ;;
  mode_set "OBJECT" ;;
  dem_min <- lift (Py.bind (amin heightmap) (fun m => Ok (IZR m))) ;;
  dem_max <- lift (Py.bind (amax heightmap) (fun m => Ok (IZR m))) ;;
  o <- get_object plane ;;
  height_texture <- create_heightmap_texture heightmap (name o) ;;
  material <- create_terrain_material (name o) height_texture dem_min dem_max
                width height scale_z scheme ;;
  update_object plane (fun o =>
    mkObject (name o) (location_x o) (location_y o) (scale_x o) (scale_y o)
             (modifiers o) (number_cuts o) (materials o ++ [material])
             (props o)) ;;
  update_object plane (set_prop "latitude" (PInt lat)) ;;
  update_object plane (set_prop "longitude" (PInt lon)) ;;
  update_object plane (set_prop "dem_min" (PFloat dem_min)) ;;
  update_object plane (set_prop "dem_max" (PFloat dem_max)) ;;
  update_object plane (set_prop "tile_width" (PFloat width)) ;;
  update_object plane (set_prop "tile_height" (PFloat height)) ;;
  ret plane.

(** *** The import operator and the drag-and-drop handler *)

Inductive operator_return : Type :=
| FINISHED
| CANCELLED.

Record ImportHGTDisplacementOperator := mkOperator {
  op_filepath : string;
  op_subdivisions : Z;
  op_scale_z : R;
  op_color_scheme : color_scheme }.

(** [ImportHGTDisplacementOperator.execute(self, context)]. *)
Definition execute (self : ImportHGTDisplacementOperator)
  : M operator_return :=
  setup_3d_views ;;
  terrain <- create_terrain_from_hgt (op_filepath self) (op_subdivisions self)
               (op_scale_z self) (op_color_scheme self) ;;
  select_all_deselect ;;
  select_set_true terrain ;;
  set_active terrain ;;
  ret FINISHED.

(** [HGTImportFileHandler.load(self, context, filepath)]. *)
Definition load (filepath : string) : M operator_return :=
  terrain <- create_terrain_from_hgt filepath 50 1 scheme_default ;;
  ret FINISHED.

(** *** Data flow in the material's node graph *)

(** [depends fuel ls n a]: the value computed by node [n] is fed, through
    the links [ls], by node [a]. *)
Fixpoint depends (fuel : nat) (ls : list Link) (n a : node) : bool :=
  node_eqb n a ||
  match fuel with
  | O => false
  | S fuel' =>
      existsb (fun l => node_eqb (to_node l) n
                        && depends fuel' ls (from_node l) a) ls
  end.

(** What reaches input socket [s] of node [n]. *)
Definition socket_depends (ls : list Link) (n : node) (s : socket)
    (a : node) : bool :=
  existsb (fun l => node_eqb (to_node l) n && socket_eqb (to_socket l) s
                    && depends 15 ls (from_node l) a) ls.

(** *** Reading back what an import left in the scene *)

(** [obj[key]] for the object behind reference [i]. *)
Definition custom_property (h : Host.state) (i : nat) (key : string)
  : option prop :=
  match nth_error (objects h) i with
  | Some o =>
      option_map snd (find (fun kv => String.eqb (fst kv) key) (props o))
  | None => None
  end.

(** The range a latitude and a longitude in degrees are expected to lie in. *)
Definition coordinates_in_range (lat lon : Z) : Prop :=
  -90 <= lat <= 90 /\ -180 <= lon <= 180.

(** An operator run that ends normally and has told the user something
    through [Operator.report]. *)
Definition handled_and_reported (self : ImportHGTDisplacementOperator)
    (h : Host.state) : Prop :=
  (exists ret, outcome (execute self) h = Ok ret)
  /\ operator_reports (snd (execute self h)) <> operator_reports h.

(** First material slot of the object behind reference [i]. *)
Definition object_material (h : Host.state) (i : nat) : option Material :=
  match nth_error (objects h) i with
  | Some o => hd_error (materials o)
  | None => None
  end.

(** The height texture feeds the material output's displacement, which
    moves the surface, or its surface shader, which colours it. *)
Definition texture_drives_geometry (m : Material) : bool :=
  socket_depends (links m) output (Named "Displacement") texture.

Definition texture_drives_colour (m : Material) : bool :=
  socket_depends (links m) output (Named "Surface") texture.

(** The texture made of the normalized heightmap is kept away from the
    geometry. *)
Definition normalized_only_for_display (m : Material) : bool :=
  negb (texture_drives_geometry m).

(** *** Comparing normalized entries *)

Definition fleb (x y : float64) : bool :=
  match x, y with
  | FNum p, FNum q => Qle_bool p q
  | _, _ => false
  end.

Definition is_finite (x : float64) : bool :=
  match x with FNum _ => true | _ => false end.

(** *** Shape of a node graph *)

Definition all_nodes : list node :=
  [ output; principled_bsdf; geometry; separate_xyz; map_range; color_ramp;
    displacement; texture; value_min; value_max; value_scale_z;
    math_height_range; math_min_div10; math_max_div10;
    math_displacement_scale ].

(** No input socket is the target of two links (a second link to a socket
    would replace the first). *)
Fixpoint distinct_targets (ls : list Link) : bool :=
  match ls with
  | [] => true
  | l :: rest =>
      negb (existsb (fun l' => node_eqb (to_node l') (to_node l)
                               && socket_eqb (to_socket l') (to_socket l))
                    rest)
      && distinct_targets rest
  end.

(** A node that is fed, through the links, by its own output. *)
Definition feeds_itself (ls : list Link) (n : node) : bool :=
  existsb (fun l => node_eqb (to_node l) n && depends 15 ls (from_node l) n)
          ls.

(** The nodes among [candidates] that reach input socket [s] of [n]. *)
Definition sources_of (ls : list Link) (n : node) (s : socket)
    (candidates : list node) : list node :=
  filter (socket_depends ls n s) candidates.

(** *** Scenes used in the examples below *)

(** A scene with one 3D viewport, no object, and one file on disk. *)
Definition scene_with_file (path : string) (bs : list byte) : Host.state :=
  mkHost (fun p => if String.eqb p path then Some bs else None)
         [mkScreen [mkArea "VIEW_3D" [mkSpace "VIEW_3D" 0.1 1000]]]
         [] None [] "OBJECT" [] [] [].

Definition import_of (path : string) : ImportHGTDisplacementOperator :=
  mkOperator path 50 1 scheme_default.

(** Two samples: not a square number of them. *)
Definition two_samples : list byte := [x00; x01; x00; x02].

(** A 2 x 2 tile holding an SRTM void (-32768) next to sea-level land. *)
Definition void_tile : list byte :=
  [x80; x00; x00; x00; x00; x00; x00; x01].

(** A flat 2 x 2 tile: every sample is 5. *)
Definition flat_tile : list byte :=
  [x00; x05; x00; x05; x00; x05; x00; x05].

(** A 2 x 2 tile with a small elevation range. *)
Definition small_tile : list byte :=
  [x00; x0a; x00; x14; x00; x1e; x00; x32].

(** * Properties *)

(** ** Tile geometry *)

Section TileGeometry.
Local Open Scope R_scope.

Lemma math_radians_opp (x : R) : math_radians (- x) = - math_radians x.
Proof. unfold math_radians. ring. Qed.

Lemma math_radians_degrees (x : R) : math_radians x = x * PI / 180.
Proof. unfold math_radians. field. Qed.

Lemma ns_distance_pos (lat : R) : 0 < snd (get_tile_dimensions lat).
Proof.
  unfold get_tile_dimensions, EARTH_RADIUS; cbn [snd].
  pose proof PI_RGT_0. lra.
Qed.

(** At the equator a tile is as wide as it is tall. *)
Example tile_at_equator :
  get_tile_dimensions 0 = (PI * 6378137 / 180, PI * 6378137 / 180).
Proof.
  unfold get_tile_dimensions, EARTH_RADIUS.
  rewrite math_radians_degrees.
  replace (0 * PI / 180) with 0 by field.
  rewrite cos_0. f_equal. ring.
Qed.

(** At 60 degrees it is half as wide. *)
Example tile_at_60 :
  fst (get_tile_dimensions 60) = snd (get_tile_dimensions 60) / 2.
Proof.
  unfold get_tile_dimensions, EARTH_RADIUS; cbn [fst snd].
  rewrite math_radians_degrees.
  replace (60 * PI / 180) with (PI / 3) by field.
  rewrite cos_PI3. field.
Qed.

(** The east-west extent never exceeds the north-south one. *)
Lemma ew_le_ns (lat : R) :
  Rabs (fst (get_tile_dimensions lat)) <= snd (get_tile_dimensions lat).
Proof.
  pose proof (ns_distance_pos lat) as Hns.
  unfold get_tile_dimensions in *; cbn [fst snd] in *.
  rewrite Rabs_mult, (Rabs_pos_eq _ (Rlt_le _ _ Hns)).
  pose proof (COS_bound (math_radians lat)) as [Hlo Hhi].
  assert (Rabs (cos (math_radians lat)) <= 1) by (apply Rabs_le; lra).
  nra.
Qed.

(** C1: for every latitude [lat] (degrees), [get_tile_dimensions lat] is the
    pair (east-west, north-south) with north-south = pi * 6378137 / 180,
    the same for every latitude, and east-west = north-south * cos(lat),
    the cosine being taken of the angle of [lat] degrees; the function is
    total: it has no error case. *)
Theorem get_tile_dimensions_spec (lat : R) :
  get_tile_dimensions lat
  = (PI * 6378137 / 180 * cos (lat * PI / 180), PI * 6378137 / 180)
  /\ fst (get_tile_dimensions lat)
     = snd (get_tile_dimensions 0) * cos (lat * PI / 180)
  /\ (forall lat', snd (get_tile_dimensions lat')
                   = snd (get_tile_dimensions lat)).
Proof.
  repeat split.
  - unfold get_tile_dimensions, EARTH_RADIUS.
    now rewrite math_radians_degrees.
  - unfold get_tile_dimensions, EARTH_RADIUS; cbn [fst snd].
    now rewrite math_radians_degrees.
Qed.

(** C10: hemisphere symmetry, [get_tile_dimensions (-lat)] and
    [get_tile_dimensions lat] are the same pair. *)
Theorem get_tile_dimensions_opp (lat : R) :
  get_tile_dimensions (- lat) = get_tile_dimensions lat.
Proof.
  unfold get_tile_dimensions.
  now rewrite math_radians_opp, cos_neg.
Qed.

End TileGeometry.

(** ** [int()] on strings *)

Section IntParsing.

Ltac ascii_cases c := destruct c as [[] [] [] [] [] [] [] []].

Lemma digit_not_space (c : ascii) : is_digit c = true -> is_space c = false.
Proof. ascii_cases c; vm_compute; congruence. Qed.

Lemma digit_not_sign (c : ascii) :
  is_digit c = true -> Ascii.eqb c "-" = false /\ Ascii.eqb c "+" = false.
Proof. ascii_cases c; vm_compute; intuition congruence. Qed.

Lemma digit_val_range (c : ascii) :
  is_digit c = true -> 0 <= digit_val c <= 9.
Proof.
  intros H.
  assert ((0 <=? digit_val c) && (digit_val c <=? 9) = true) as Hb
    by (revert H; ascii_cases c; vm_compute; congruence).
  apply andb_true_iff in Hb as [Hlo Hhi]. lia.
Qed.

Lemma parse_digits_all (ds : list ascii) :
  forall acc b,
    forallb is_digit ds = true ->
    ds <> [] \/ b = true ->
    parse_digits acc b ds = Some (decimal_from acc ds).
Proof.
  induction ds as [|c ds IH]; intros acc b Hall Hne.
  - destruct Hne as [Hne | ->]; [congruence | reflexivity].
  - cbn in Hall. apply andb_true_iff in Hall as [Hc Hds].
    cbn. rewrite Hc. apply IH; auto.
Qed.

Lemma lstrip_digit (c : ascii) (s : list ascii) :
  is_digit c = true -> lstrip (c :: s) = c :: s.
Proof. intros H. cbn. now rewrite (digit_not_space c H). Qed.

Lemma strip_digits (ds : list ascii) :
  forallb is_digit ds = true -> strip ds = ds.
Proof.
  intros Hall. unfold strip.
  assert (lstrip ds = ds) as ->.
  { destruct ds as [|c ds]; [reflexivity|].
    cbn in Hall. apply andb_true_iff in Hall as [Hc _].
    now apply lstrip_digit. }
  assert (lstrip (rev ds) = rev ds) as ->.
  { destruct (rev ds) as [|c r] eqn:E; [reflexivity|].
    apply lstrip_digit.
    rewrite forallb_forall in Hall. apply Hall.
    apply in_rev. rewrite E. now left. }
  apply rev_involutive.
Qed.

Lemma parse_int_digits (c : ascii) (ds : list ascii) :
  forallb is_digit (c :: ds) = true ->
  parse_int (c :: ds) = Some (decimal_from 0 (c :: ds)).
Proof.
  intros Hall. unfold parse_int. rewrite (strip_digits _ Hall).
  pose proof Hall as Hall'. cbn in Hall'.
  apply andb_true_iff in Hall' as [Hc _].
  destruct (digit_not_sign c Hc) as [-> ->].
  apply parse_digits_all; [assumption | left; discriminate].
Qed.

(** A parsed number has no more decimal digits than the text has
    characters. *)
Lemma parse_digits_bound (s : list ascii) :
  forall acc b v,
    0 <= acc ->
    parse_digits acc b s = Some v ->
    0 <= v < (acc + 1) * 10 ^ Z.of_nat (List.length s).
Proof.
  induction s as [|c s IH]; intros acc b v Hacc Hp.
  - cbn in Hp. destruct b; [|discriminate]. injection Hp as <-. cbn. lia.
  - cbn [parse_digits] in Hp.
    assert (10 ^ Z.of_nat (List.length (c :: s))
            = 10 * 10 ^ Z.of_nat (List.length s)) as ->.
    { cbn [List.length]. rewrite Nat2Z.inj_succ, Z.pow_succ_r; lia. }
    assert (0 < 10 ^ Z.of_nat (List.length s)) as Hpow
      by (apply Z.pow_pos_nonneg; lia).
    destruct (is_digit c) eqn:Hc.
    + pose proof (digit_val_range c Hc) as Hd.
      apply IH in Hp; [|lia]. nia.
    + destruct (Ascii.eqb c "_"); [|discriminate].
      destruct b; [|discriminate].
      apply IH in Hp; [|lia]. nia.
Qed.

Lemma lstrip_length (s : list ascii) :
  (List.length (lstrip s) <= List.length s)%nat.
Proof.
  induction s as [|c s IH]; cbn; [lia|].
  destruct (is_space c); cbn; lia.
Qed.

Lemma strip_length (s : list ascii) :
  (List.length (strip s) <= List.length s)%nat.
Proof.
  unfold strip. rewrite length_rev.
  etransitivity; [apply lstrip_length|].
  rewrite length_rev. apply lstrip_length.
Qed.

Lemma parse_int_bound (s : list ascii) (v : Z) :
  parse_int s = Some v -> Z.abs v < 10 ^ Z.of_nat (List.length s).
Proof.
  unfold parse_int. intros Hp.
  pose proof (strip_length s) as Hlen.
  assert (10 ^ Z.of_nat (List.length (strip s))
          <= 10 ^ Z.of_nat (List.length s)) as Hmono
    by (apply Z.pow_le_mono_r; lia).
  destruct (strip s) as [|c ds]; [discriminate|].
  assert (10 ^ Z.of_nat (List.length ds)
          <= 10 ^ Z.of_nat (List.length (c :: ds))) as Hmono'
    by (apply Z.pow_le_mono_r; cbn [List.length]; lia).
  destruct (Ascii.eqb c "-").
  - destruct (parse_digits 0 false ds) as [w|] eqn:E; [|discriminate].
    cbn in Hp. injection Hp as <-.
    apply parse_digits_bound in E; lia.
  - destruct (Ascii.eqb c "+").
    + apply parse_digits_bound in Hp; lia.
    + apply parse_digits_bound in Hp; lia.
Qed.

Lemma length_list_ascii_of_string (s : string) :
  List.length (list_ascii_of_string s) = String.length s.
Proof. induction s; cbn; congruence. Qed.

Lemma int_bound (s : string) (v : Z) :
  Py.int s = Ok v -> Z.abs v < 10 ^ Z.of_nat (String.length s).
Proof.
  unfold Py.int. intros H.
  destruct (parse_int (list_ascii_of_string s)) as [w|] eqn:E;
    [|discriminate].
  injection H as <-. apply parse_int_bound in E.
  now rewrite length_list_ascii_of_string in E.
Qed.

Lemma substring_length_le (s : string) :
  forall n m, (String.length (substring n m s) <= m)%nat.
Proof.
  induction s as [|c s IH]; intros n m.
  - destruct n, m; cbn; lia.
  - destruct n as [|n]; destruct m as [|m]; cbn; try lia.
    + specialize (IH 0%nat m). lia.
    + apply IH.
    + apply IH.
Qed.

Lemma substring_0_0 (s : string) : substring 0 0 s = EmptyString.
Proof. now destruct s. Qed.

Lemma slice_length_le (s : string) (i j : nat) :
  (String.length (slice s i j) <= j - i)%nat.
Proof. apply substring_length_le. Qed.

End IntParsing.

(** ** Tile identity *)

Section TileIdentity.

Lemma int_two_digits (a b : ascii) :
  is_digit a = true -> is_digit b = true ->
  Py.int (String a (String b "")) = Ok (10 * digit_val a + digit_val b).
Proof.
  intros Ha Hb. unfold Py.int. cbn [list_ascii_of_string].
  rewrite parse_int_digits by (cbn; now rewrite Ha, Hb).
  reflexivity.
Qed.

Lemma int_three_digits (a b c : ascii) :
  is_digit a = true -> is_digit b = true -> is_digit c = true ->
  Py.int (String a (String b (String c "")))
  = Ok (100 * digit_val a + 10 * digit_val b + digit_val c).
Proof.
  intros Ha Hb Hc. unfold Py.int. cbn [list_ascii_of_string].
  rewrite parse_int_digits by (cbn; now rewrite Ha, Hb, Hc).
  unfold decimal_from; cbn [fold_left]. f_equal. lia.
Qed.

(** The hemisphere letters are only compared with ['S'] and ['W']: any
    other character in their place leaves the sign positive. *)
Lemma tile_coordinates_digits (c0 d1 d2 c3 d4 d5 d6 : ascii) (ext : string) :
  forallb is_digit [d1; d2; d4; d5; d6] = true ->
  tile_coordinates
    (String c0 (String d1 (String d2
       (String c3 (String d4 (String d5 (String d6 ext)))))))
  = Ok ((if Ascii.eqb c0 "S"
         then - (10 * digit_val d1 + digit_val d2)
         else 10 * digit_val d1 + digit_val d2),
        (if Ascii.eqb c3 "W"
         then - (100 * digit_val d4 + 10 * digit_val d5 + digit_val d6)
         else 100 * digit_val d4 + 10 * digit_val d5 + digit_val d6)).
Proof.
  intros Hall. cbn in Hall.
  repeat (apply andb_true_iff in Hall as [? Hall]).
  unfold tile_coordinates, slice.
  cbn [substring Nat.sub]. rewrite substring_0_0.
  rewrite int_two_digits, int_three_digits by assumption.
  reflexivity.
Qed.

(** C5: for a base name [NS]DD[EW]DDD.hgt the parsed latitude is the
    two-digit number at positions 1-2, negated exactly when the first
    character is S, and the longitude is the three-digit number at positions
    4-6, negated exactly when the character at position 3 is W; the name
    N37W122.hgt gives (37, -122). *)
Theorem tile_coordinates_of_name (c0 d1 d2 c3 d4 d5 d6 : ascii) :
  c0 = "N"%char \/ c0 = "S"%char ->
  c3 = "E"%char \/ c3 = "W"%char ->
  forallb is_digit [d1; d2; d4; d5; d6] = true ->
  tile_coordinates
    (String c0 (String d1 (String d2
       (String c3 (String d4 (String d5 (String d6 ".hgt")))))))
  = Ok ((if Ascii.eqb c0 "S"
         then - (10 * digit_val d1 + digit_val d2)
         else 10 * digit_val d1 + digit_val d2),
        (if Ascii.eqb c3 "W"
         then - (100 * digit_val d4 + 10 * digit_val d5 + digit_val d6)
         else 100 * digit_val d4 + 10 * digit_val d5 + digit_val d6))
  /\ tile_coordinates "N37W122.hgt" = Ok (37, -122).
Proof.
  intros _ _ Hall. split.
  - now apply tile_coordinates_digits.
  - reflexivity.
Qed.

Lemma tile_coordinates_of_name_witness :
  tile_coordinates "S05E009.hgt" = Ok (-5, 9)
  /\ tile_coordinates "N37W122.hgt" = Ok (37, -122).
Proof.
  exact (tile_coordinates_of_name "S" "0" "5" "E" "0" "0" "9"
           (or_intror eq_refl) (or_introl eq_refl) eq_refl).
Defined.

End TileIdentity.

(** ** Range of the parsed coordinates *)

Section CoordinateRange.

Lemma mbind_ok_inv {A B} (m : M A) (k : A -> M B) (h : Host.state) (b : B) :
  outcome (mbind m k) h = Ok b ->
  exists a h', m h = (Ok a, h') /\ outcome (k a) h' = Ok b.
Proof.
  unfold outcome, mbind. destruct (m h) as [[a|e] h']; cbn.
  - intros H. now exists a, h'.
  - discriminate.
Qed.

Lemma lift_ok_inv {A} (r : result A) (h h' : Host.state) (a : A) :
  lift r h = (Ok a, h') -> r = Ok a.
Proof. unfold lift. congruence. Qed.

(** Whatever the base name, the two slices hold at most two and three
    characters. *)
Lemma tile_coordinates_bound (basename : string) (lat lon : Z) :
  tile_coordinates basename = Ok (lat, lon) ->
  -99 <= lat <= 99 /\ -999 <= lon <= 999.
Proof.
  unfold tile_coordinates. intros H.
  destruct (Py.int (slice basename 1 3)) as [a|] eqn:Ha; [|discriminate].
  destruct (Py.int (slice basename 4 7)) as [b|] eqn:Hb; [|discriminate].
  cbn [Py.bind] in H.
  destruct (Py.index basename 0) as [c0|]; [|discriminate].
  cbn [Py.bind] in H.
  destruct (Py.index basename 3) as [c3|]; [|discriminate].
  cbn [Py.bind] in H. injection H as <- <-.
  apply int_bound in Ha, Hb.
  pose proof (slice_length_le basename 1 3) as La.
  pose proof (slice_length_le basename 4 7) as Lb.
  assert (10 ^ Z.of_nat (String.length (slice basename 1 3)) <= 10 ^ 2)
    by (apply Z.pow_le_mono_r; lia).
  assert (10 ^ Z.of_nat (String.length (slice basename 4 7)) <= 10 ^ 3)
    by (apply Z.pow_le_mono_r; lia).
  destruct (Ascii.eqb c0 "S"), (Ascii.eqb c3 "W"); lia.
Qed.

Lemma create_terrain_ok_coordinates (filepath : string) (subdivisions : Z)
    (scale_z : R) (scheme : color_scheme) (h : Host.state) (plane : nat) :
  outcome (create_terrain_from_hgt filepath subdivisions scale_z scheme) h
  = Ok plane ->
  exists lat lon,
    tile_coordinates (Py.basename filepath) = Ok (lat, lon).
Proof.
  unfold create_terrain_from_hgt. intros H.
  apply mbind_ok_inv in H as (heightmap & h1 & _ & H).
  apply mbind_ok_inv in H as ([lat lon] & h2 & Hc & _).
  apply lift_ok_inv in Hc. now exists lat, lon.
Qed.

(** C6, as the code has it: a file name the import accepts has a latitude in
    [-99, 99] and a longitude in [-999, 999]; nothing checks the geographic
    ranges. *)
Theorem accepted_coordinates_bound (self : ImportHGTDisplacementOperator)
    (h : Host.state) (r : operator_return) :
  outcome (execute self) h = Ok r ->
  exists lat lon,
    tile_coordinates (Py.basename (op_filepath self)) = Ok (lat, lon)
    /\ -99 <= lat <= 99 /\ -999 <= lon <= 999.
Proof.
  unfold execute. intros H.
  apply mbind_ok_inv in H as (u & h1 & _ & H).
  apply mbind_ok_inv in H as (plane & h2 & Hc & _).
  assert (outcome (create_terrain_from_hgt (op_filepath self)
                     (op_subdivisions self) (op_scale_z self)
                     (op_color_scheme self)) h1 = Ok plane) as Hc'
    by (unfold outcome; now rewrite Hc).
  apply create_terrain_ok_coordinates in Hc' as (lat & lon & Hll).
  exists lat, lon. split; [assumption|].
  exact (tile_coordinates_bound _ _ _ Hll).
Qed.

Lemma accepted_coordinates_bound_witness :
  outcome (execute (import_of "/srtm/S33W070.hgt"))
          (scene_with_file "/srtm/S33W070.hgt" small_tile) = Ok FINISHED
  /\ exists lat lon,
       tile_coordinates (Py.basename "/srtm/S33W070.hgt") = Ok (lat, lon)
       /\ -99 <= lat <= 99 /\ -999 <= lon <= 999.
Proof.
  split.
  - reflexivity.
  - exact (accepted_coordinates_bound (import_of "/srtm/S33W070.hgt")
             (scene_with_file "/srtm/S33W070.hgt" small_tile) FINISHED
             eq_refl).
Defined.

(** C6, as stated, fails: the name N99E999.hgt is imported, and the plane
    is annotated with latitude 99 and longitude 999. *)
Lemma out_of_range_tile_accepted :
  let self := import_of "/srtm/N99E999.hgt" in
  let h := scene_with_file "/srtm/N99E999.hgt" small_tile in
  outcome (execute self) h = Ok FINISHED
  /\ tile_coordinates (Py.basename (op_filepath self)) = Ok (99, 999)
  /\ custom_property (snd (execute self h)) 0 "latitude" = Some (PInt 99)
  /\ custom_property (snd (execute self h)) 0 "longitude" = Some (PInt 999)
  /\ ~ coordinates_in_range 99 999.
Proof.
  cbv zeta. repeat split; try reflexivity.
  unfold coordinates_in_range. lia.
Qed.

End CoordinateRange.

(** ** Loading the grid *)

Section Loader.

Lemma rows_of_length (r c : nat) :
  forall data, List.length (rows_of r c data) = r.
Proof. induction r as [|r IH]; intros data; cbn; [reflexivity|]. now rewrite IH. Qed.

Lemma rows_of_row_length (r c : nat) :
  forall data,
    List.length data = (r * c)%nat ->
    Forall (fun row => List.length row = c) (rows_of r c data).
Proof.
  induction r as [|r IH]; intros data Hlen; cbn [rows_of].
  - constructor.
  - constructor.
    + rewrite length_firstn. cbn in Hlen. lia.
    + apply IH. rewrite length_skipn. cbn in Hlen. lia.
Qed.

Lemma rows_of_concat (r c : nat) :
  forall data,
    List.length data = (r * c)%nat ->
    List.concat (rows_of r c data) = data.
Proof.
  induction r as [|r IH]; intros data Hlen; cbn [rows_of List.concat].
  - destruct data; [reflexivity | discriminate].
  - rewrite IH.
    + apply firstn_skipn.
    + rewrite length_skipn. cbn in Hlen. lia.
Qed.

Lemma reshape_square_ok (data : list Z) (k : Z) :
  0 <= k ->
  Z.of_nat (List.length data) = k * k ->
  exists g,
    reshape data k k = Ok g
    /\ List.length g = Z.to_nat k
    /\ Forall (fun row => List.length row = Z.to_nat k) g
    /\ List.concat g = data.
Proof.
  intros Hk Hn. unfold reshape.
  rewrite <- Hn, Z.eqb_refl.
  assert (List.length data = (Z.to_nat k * Z.to_nat k)%nat) as Hlen
    by (rewrite <- Z2Nat.inj_mul, <- Hn, Nat2Z.id by lia; reflexivity).
  eexists. split; [reflexivity|].
  split; [apply rows_of_length|].
  split; [now apply rows_of_row_length | now apply rows_of_concat].
Qed.

Lemma reshape_not_square (data : list Z) (s : Z) :
  (forall k, Z.of_nat (List.length data) <> k * k) ->
  reshape data s s = Raise (ValueError_reshape (Z.of_nat (List.length data)) s s).
Proof.
  intros Hns. unfold reshape.
  destruct (Z.eqb_spec (s * s) (Z.of_nat (List.length data))) as [E|_].
  - exfalso. now apply (Hns s).
  - reflexivity.
Qed.

Lemma read_heightmap_run (h : Host.state) (filepath : string)
    (bs : list byte) :
  files h filepath = Some bs ->
  read_heightmap filepath h
  = (reshape (decode_i16 bs)
       (int_sqrt (Z.of_nat (List.length (decode_i16 bs))))
       (int_sqrt (Z.of_nat (List.length (decode_i16 bs)))), h).
Proof.
  intros Hf. unfold read_heightmap, mbind, np_fromfile, lift.
  now rewrite Hf.
Qed.

Lemma read_heightmap_unfold (h : Host.state) (filepath : string)
    (bs : list byte) :
  files h filepath = Some bs ->
  outcome (read_heightmap filepath) h
  = reshape (decode_i16 bs)
      (int_sqrt (Z.of_nat (List.length (decode_i16 bs))))
      (int_sqrt (Z.of_nat (List.length (decode_i16 bs)))).
Proof.
  intros Hf. unfold outcome. now rewrite (read_heightmap_run _ _ _ Hf).
Qed.

Lemma two_not_square (k : Z) : 2 <> k * k.
Proof.
  intros Hk.
  assert (-2 < k < 2) as Hr by nia.
  assert (k = -1 \/ k = 0 \/ k = 1) as [-> | [-> | ->]] by lia; discriminate.
Qed.

(** C3: the loader raises the reshape error for every buffer whose number
    of 16-bit samples is not a perfect square, and returns a square grid
    holding the samples in order whenever it is one; a buffer of
    1200 * 1200 + 1 samples is rejected. *)
Theorem read_heightmap_square (h : Host.state) (filepath : string)
    (bs : list byte) :
  files h filepath = Some bs ->
  let n := Z.of_nat (List.length (decode_i16 bs)) in
  ((forall k, n <> k * k) ->
   outcome (read_heightmap filepath) h
   = Raise (ValueError_reshape n (Z.sqrt n) (Z.sqrt n)))
  /\ (forall k, 0 <= k -> n = k * k ->
      exists g,
        outcome (read_heightmap filepath) h = Ok g
        /\ List.length g = Z.to_nat k
        /\ Forall (fun row => List.length row = Z.to_nat k) g
        /\ List.concat g = decode_i16 bs)
  /\ (n = 1200 * 1200 + 1 ->
      outcome (read_heightmap filepath) h
      = Raise (ValueError_reshape 1440001 1200 1200)).
Proof.
  intros Hf n. rewrite (read_heightmap_unfold _ _ _ Hf).
  fold n. unfold int_sqrt. repeat split.
  - intros Hns. now apply reshape_not_square.
  - intros k Hk Hn.
    replace (Z.sqrt n) with k
      by (rewrite Hn; symmetry; now apply Z.sqrt_square).
    now apply reshape_square_ok.
  - intros Hn. unfold reshape. fold n. rewrite Hn. reflexivity.
Qed.

Lemma read_heightmap_square_witness :
  outcome (read_heightmap "/srtm/N37W122.hgt")
          (scene_with_file "/srtm/N37W122.hgt" two_samples)
  = Raise (ValueError_reshape 2 1 1)
  /\ exists g,
       outcome (read_heightmap "/srtm/N37W122.hgt")
               (scene_with_file "/srtm/N37W122.hgt" small_tile) = Ok g
       /\ List.length g = 2%nat
       /\ Forall (fun row => List.length row = 2%nat) g
       /\ List.concat g = [10; 20; 30; 50].
Proof.
  split.
  - refine (proj1 (read_heightmap_square
                     (scene_with_file "/srtm/N37W122.hgt" two_samples)
                     "/srtm/N37W122.hgt" two_samples eq_refl) _).
    exact two_not_square.
  - exact (proj1 (proj2 (read_heightmap_square
                     (scene_with_file "/srtm/N37W122.hgt" small_tile)
                     "/srtm/N37W122.hgt" small_tile eq_refl))
             2 ltac:(lia) eq_refl).
Defined.

End Loader.

(** ** Errors and the operator *)

Section OperatorErrors.

Lemma mbind_ok {A B} (m : M A) (k : A -> M B) (h h' : Host.state) (a : A) :
  m h = (Ok a, h') -> mbind m k h = k a h'.
Proof. intros H. unfold mbind. now rewrite H. Qed.

Lemma mbind_raise {A B} (m : M A) (k : A -> M B) (h h' : Host.state)
    (e : exn) :
  m h = (Raise e, h') -> mbind m k h = (Raise e, h').
Proof. intros H. unfold mbind. now rewrite H. Qed.

(** When reading the grid fails, nothing but the viewport set-up has
    happened, and the exception leaves [execute]. *)
Lemma execute_read_failure (self : ImportHGTDisplacementOperator)
    (h : Host.state) (bs : list byte) (e : exn) :
  files h (op_filepath self) = Some bs ->
  reshape (decode_i16 bs)
    (int_sqrt (Z.of_nat (List.length (decode_i16 bs))))
    (int_sqrt (Z.of_nat (List.length (decode_i16 bs)))) = Raise e ->
  execute self h = (Raise e, snd (setup_3d_views h)).
Proof.
  intros Hf He. unfold execute.
  rewrite (mbind_ok _ _ h (snd (setup_3d_views h)) tt) by reflexivity.
  apply mbind_raise. unfold create_terrain_from_hgt.
  apply mbind_raise.
  rewrite (read_heightmap_run _ _ bs) by exact Hf.
  now rewrite He.
Qed.

(** C7, as the code has it: on a file whose sample count is not a perfect
    square the reshape error leaves [execute] as an exception; [execute]
    returns nothing, the add-on reports nothing and no object is made. *)
Theorem execute_malformed_raises (self : ImportHGTDisplacementOperator)
    (h : Host.state) (bs : list byte) :
  files h (op_filepath self) = Some bs ->
  let n := Z.of_nat (List.length (decode_i16 bs)) in
  (forall k, n <> k * k) ->
  outcome (execute self) h
  = Raise (ValueError_reshape n (Z.sqrt n) (Z.sqrt n))
  /\ operator_reports (snd (execute self h)) = operator_reports h
  /\ objects (snd (execute self h)) = objects h.
Proof.
  intros Hf n Hns.
  assert (execute self h
          = (Raise (ValueError_reshape n (Z.sqrt n) (Z.sqrt n)),
             snd (setup_3d_views h))) as E.
  { apply (execute_read_failure self h bs); [exact Hf|].
    now apply reshape_not_square. }
  unfold outcome. rewrite E. repeat split; reflexivity.
Qed.

Lemma execute_malformed_raises_witness :
  let self := import_of "/srtm/N37W122.hgt" in
  let h := scene_with_file "/srtm/N37W122.hgt" two_samples in
  outcome (execute self) h = Raise (ValueError_reshape 2 1 1)
  /\ operator_reports (snd (execute self h)) = operator_reports h
  /\ objects (snd (execute self h)) = objects h.
Proof.
  exact (execute_malformed_raises (import_of "/srtm/N37W122.hgt")
           (scene_with_file "/srtm/N37W122.hgt" two_samples) two_samples
           eq_refl two_not_square).
Defined.

(** C7, as stated, fails: on a two-sample file [execute] ends with the
    reshape error instead of a return value, and nothing is reported. *)
Lemma malformed_input_not_handled :
  let self := import_of "/srtm/N37W122.hgt" in
  let h := scene_with_file "/srtm/N37W122.hgt" two_samples in
  outcome (execute self) h = Raise (ValueError_reshape 2 1 1)
  /\ operator_reports (snd (execute self h)) = []
  /\ ~ handled_and_reported self h.
Proof.
  cbv zeta. repeat split.
  intros [[ret Hret] _]. discriminate Hret.
Qed.

End OperatorErrors.

(** ** The empty file *)

Section EmptyFile.

(** Once the grid has no sample, the import stops at the first reduction
    (line 272), whatever else the arguments are. *)
Lemma create_terrain_empty_grid (filepath : string) (subdivisions : Z)
    (scale_z : R) (scheme : color_scheme) (h : Host.state)
    (lat lon : Z) :
  files h filepath = Some [] ->
  tile_coordinates (Py.basename filepath) = Ok (lat, lon) ->
  outcome (create_terrain_from_hgt filepath subdivisions scale_z scheme) h
  = Raise (ValueError_zero_size "minimum").
Proof.
  intros Hf Hc. unfold outcome, create_terrain_from_hgt.
  rewrite (mbind_ok _ _ h h []) by (now rewrite (read_heightmap_run _ _ [])).
  rewrite (mbind_ok _ _ h h (lat, lon)) by (unfold lift; now rewrite Hc).
  cbv zeta.
  repeat (erewrite mbind_ok by reflexivity).
  erewrite mbind_raise by reflexivity.
  reflexivity.
Qed.

Lemma create_terrain_bad_name (filepath : string) (subdivisions : Z)
    (scale_z : R) (scheme : color_scheme) (h : Host.state) (e : exn) :
  files h filepath = Some [] ->
  tile_coordinates (Py.basename filepath) = Raise e ->
  outcome (create_terrain_from_hgt filepath subdivisions scale_z scheme) h
  = Raise e.
Proof.
  intros Hf Hc. unfold outcome, create_terrain_from_hgt.
  rewrite (mbind_ok _ _ h h []) by (now rewrite (read_heightmap_run _ _ [])).
  erewrite mbind_raise by (unfold lift; now rewrite Hc).
  reflexivity.
Qed.

Lemma execute_outcome (self : ImportHGTDisplacementOperator)
    (h : Host.state) (e : exn) :
  outcome (create_terrain_from_hgt (op_filepath self) (op_subdivisions self)
             (op_scale_z self) (op_color_scheme self))
          (snd (setup_3d_views h)) = Raise e ->
  outcome (execute self) h = Raise e.
Proof.
  unfold outcome, execute. intros H.
  rewrite (mbind_ok _ _ h (snd (setup_3d_views h)) tt) by reflexivity.
  unfold mbind at 1.
  destruct (create_terrain_from_hgt _ _ _ _ _) as [[p|e'] h'];
    cbn [fst] in *; congruence.
Qed.

(** C9: a zero-length file passes the size test, giving a grid with no
    sample, and the import then fails: with a well-formed name it is the
    minimum of the empty grid that raises. *)
Theorem empty_file_import_fails (self : ImportHGTDisplacementOperator)
    (h : Host.state) :
  files h (op_filepath self) = Some [] ->
  outcome (read_heightmap (op_filepath self)) h = Ok []
  /\ (exists e, outcome (execute self) h = Raise e)
  /\ (forall lat lon,
        tile_coordinates (Py.basename (op_filepath self)) = Ok (lat, lon) ->
        outcome (execute self) h = Raise (ValueError_zero_size "minimum")).
Proof.
  intros Hf.
  assert (files (snd (setup_3d_views h)) (op_filepath self) = Some [])
    as Hf' by exact Hf.
  split; [| split].
  - now rewrite (read_heightmap_unfold _ _ [] Hf).
  - destruct (tile_coordinates (Py.basename (op_filepath self)))
      as [[lat lon]|e] eqn:Hc.
    + exists (ValueError_zero_size "minimum"). apply execute_outcome.
      now apply (create_terrain_empty_grid _ _ _ _ _ lat lon).
    + exists e. apply execute_outcome.
      now apply create_terrain_bad_name.
  - intros lat lon Hc. apply execute_outcome.
    now apply (create_terrain_empty_grid _ _ _ _ _ lat lon).
Qed.

Lemma empty_file_import_fails_witness :
  let self := import_of "/srtm/N37W122.hgt" in
  let h := scene_with_file "/srtm/N37W122.hgt" [] in
  outcome (read_heightmap (op_filepath self)) h = Ok []
  /\ outcome (execute self) h = Raise (ValueError_zero_size "minimum").
Proof.
  pose proof (empty_file_import_fails (import_of "/srtm/N37W122.hgt")
                (scene_with_file "/srtm/N37W122.hgt" []) eq_refl)
    as (Hread & _ & Hmin).
  split.
  - exact Hread.
  - exact (Hmin 37 (-122) eq_refl).
Defined.

End EmptyFile.

(** ** Normalization *)

Section Normalization.

Lemma fold_min_le_init (xs : list Z) :
  forall x, fold_left Z.min xs x <= x.
Proof.
  induction xs as [|a xs IH]; intros x; cbn; [lia|].
  specialize (IH (Z.min x a)). lia.
Qed.

Lemma fold_min_le (xs : list Z) :
  forall x y, In y xs -> fold_left Z.min xs x <= y.
Proof.
  induction xs as [|a xs IH]; intros x y Hin; cbn; [contradiction|].
  destruct Hin as [-> | Hin].
  - pose proof (fold_min_le_init xs (Z.min x y)). lia.
  - now apply IH.
Qed.

Lemma fold_min_in (xs : list Z) :
  forall x, In (fold_left Z.min xs x) (x :: xs).
Proof.
  induction xs as [|a xs IH]; intros x; cbn [fold_left]; [now left|].
  destruct (IH (Z.min x a)) as [E | Hin].
  - rewrite <- E. destruct (Z.min_spec x a) as [[_ ->] | [_ ->]];
      [now left | right; now left].
  - right; now right.
Qed.

Lemma fold_max_ge_init (xs : list Z) :
  forall x, x <= fold_left Z.max xs x.
Proof.
  induction xs as [|a xs IH]; intros x; cbn; [lia|].
  specialize (IH (Z.max x a)). lia.
Qed.

Lemma fold_max_ge (xs : list Z) :
  forall x y, In y xs -> y <= fold_left Z.max xs x.
Proof.
  induction xs as [|a xs IH]; intros x y Hin; cbn; [contradiction|].
  destruct Hin as [-> | Hin].
  - pose proof (fold_max_ge_init xs (Z.max x y)). lia.
  - now apply IH.
Qed.

Lemma fold_max_in (xs : list Z) :
  forall x, In (fold_left Z.max xs x) (x :: xs).
Proof.
  induction xs as [|a xs IH]; intros x; cbn [fold_left]; [now left|].
  destruct (IH (Z.max x a)) as [E | Hin].
  - rewrite <- E. destruct (Z.max_spec x a) as [[_ ->] | [_ ->]];
      [right; now left | now left].
  - right; now right.
Qed.

Lemma amin_spec (g : list (list Z)) (lo : Z) :
  amin g = Ok lo ->
  In lo (List.concat g) /\ forall y, In y (List.concat g) -> lo <= y.
Proof.
  unfold amin. destruct (List.concat g) as [|x xs]; [discriminate|].
  intros H; injection H as <-. split.
  - apply fold_min_in.
  - intros y [<- | Hin]; [apply fold_min_le_init | now apply fold_min_le].
Qed.

Lemma amax_spec (g : list (list Z)) (hi : Z) :
  amax g = Ok hi ->
  In hi (List.concat g) /\ forall y, In y (List.concat g) -> y <= hi.
Proof.
  unfold amax. destruct (List.concat g) as [|x xs]; [discriminate|].
  intros H; injection H as <-. split.
  - apply fold_max_in.
  - intros y [<- | Hin]; [apply fold_max_ge_init | now apply fold_max_ge].
Qed.

Lemma wrap16_small (z : Z) : -32768 <= z <= 32767 -> wrap16 z = z.
Proof. intros H. unfold wrap16. rewrite Z.mod_small; lia. Qed.

Lemma wrap16_range (z : Z) : -32768 <= wrap16 z <= 32767.
Proof.
  unfold wrap16. pose proof (Z.mod_pos_bound (z + 32768) 65536). lia.
Qed.

Lemma be_i16_range (hi lo : byte) : -32768 <= be_i16 hi lo <= 32767.
Proof.
  unfold be_i16.
  pose proof (Byte.to_N_bounded hi). pose proof (Byte.to_N_bounded lo).
  destruct (Z.ltb_spec
              (Z.of_N (Byte.to_N hi) * 256 + Z.of_N (Byte.to_N lo)) 32768);
    lia.
Qed.

Lemma concat_normalized (g : list (list Z)) (lo hi : Z) :
  List.concat (heightmap_normalized g lo hi)
  = map (fun h => true_divide (sub_i16 h lo) (sub_i16 hi lo))
        (List.concat g).
Proof. unfold heightmap_normalized. symmetry. apply concat_map. Qed.

Lemma true_divide_unit (n d : Z) :
  0 <= n <= d -> 0 < d -> in_unit_interval (true_divide n d) = true.
Proof.
  intros Hn Hd. unfold true_divide.
  destruct (Z.eqb_spec d 0) as [->|_]; [lia|].
  cbn [in_unit_interval]. apply andb_true_iff.
  assert (0 < inject_Z d)%Q as Hdq
    by (change 0%Q with (inject_Z 0); now rewrite <- Zlt_Qlt).
  split; apply Qle_bool_iff; rewrite Qred_correct.
  - apply Qle_shift_div_l; [assumption|].
    rewrite Qmult_0_l. change 0%Q with (inject_Z 0).
    rewrite <- Zle_Qle. lia.
  - apply Qle_shift_div_r; [assumption|].
    rewrite Qmult_1_l. rewrite <- Zle_Qle. lia.
Qed.

Lemma true_divide_zero (d : Z) :
  d <> 0 -> feqb (true_divide 0 d) 0 = true.
Proof.
  intros Hd. unfold true_divide.
  destruct (Z.eqb_spec d 0) as [->|_]; [congruence|].
  cbn [feqb]. apply Qeq_bool_iff. rewrite Qred_correct.
  unfold Qdiv. apply Qmult_0_l.
Qed.

Lemma true_divide_same (d : Z) :
  d <> 0 -> feqb (true_divide d d) 1 = true.
Proof.
  intros Hd. unfold true_divide.
  destruct (Z.eqb_spec d 0) as [->|_]; [congruence|].
  cbn [feqb]. apply Qeq_bool_iff. rewrite Qred_correct.
  apply Qmult_inv_r. intros E.
  apply Hd. unfold Qeq in E. cbn in E. lia.
Qed.

Lemma create_heightmap_texture_run (g : list (list Z)) (name : string)
    (h : Host.state) (lo hi : Z) :
  amin g = Ok lo ->
  amax g = Ok hi ->
  outcome (create_heightmap_texture g name) h
  = Ok (mkImage (name ++ "_height")%string
          (Z.of_nat (List.length g)) (Z.of_nat (List.length g))
          (texture_pixels (List.length g) (heightmap_normalized g lo hi))).
Proof.
  intros Hlo Hhi. unfold outcome, create_heightmap_texture.
  rewrite (mbind_ok _ _ h h lo) by (unfold lift; now rewrite Hlo).
  rewrite (mbind_ok _ _ h h hi) by (unfold lift; now rewrite Hhi).
  reflexivity.
Qed.

Lemma flat_grid_entries (g : list (list Z)) (m : Z) :
  amin g = Ok m -> amax g = Ok m ->
  forall row x, In row g -> In x row -> x = m.
Proof.
  intros Hlo Hhi row x Hrow Hx.
  apply amin_spec in Hlo as [_ Hlo]. apply amax_spec in Hhi as [_ Hhi].
  assert (In x (List.concat g)) as Hin
    by (apply in_concat; now exists row).
  specialize (Hlo x Hin). specialize (Hhi x Hin). lia.
Qed.

(** C4: on a flat tile (minimum = maximum) the divisor of the normalization
    is zero and every normalized entry is the NaN of 0/0; no branch gives
    the flat tile a value of its own, and the texture is built from those
    NaN entries. *)
Theorem flat_tile_divides_by_zero (g : list (list Z)) (m : Z)
    (name : string) (h : Host.state) :
  amin g = Ok m ->
  amax g = Ok m ->
  sub_i16 m m = 0
  /\ heightmap_normalized g m m = map (map (fun _ => FNaN)) g
  /\ outcome (create_heightmap_texture g name) h
     = Ok (mkImage (name ++ "_height")%string
             (Z.of_nat (List.length g)) (Z.of_nat (List.length g))
             (texture_pixels (List.length g)
                (map (map (fun _ => FNaN)) g))).
Proof.
  intros Hlo Hhi.
  assert (sub_i16 m m = 0) as Hdiv
    by (unfold sub_i16; rewrite Z.sub_diag; reflexivity).
  assert (heightmap_normalized g m m = map (map (fun _ => FNaN)) g) as Hn.
  { unfold heightmap_normalized.
    apply map_ext_in; intros row Hrow.
    apply map_ext_in; intros x Hx.
    rewrite (flat_grid_entries g m Hlo Hhi row x Hrow Hx), Hdiv.
    reflexivity. }
  repeat split; [assumption | assumption |].
  rewrite (create_heightmap_texture_run g name h m m Hlo Hhi).
  now rewrite Hn.
Qed.

Lemma flat_tile_divides_by_zero_witness :
  sub_i16 5 5 = 0
  /\ heightmap_normalized [[5; 5]; [5; 5]] 5 5 = [[FNaN; FNaN]; [FNaN; FNaN]]
  /\ outcome (create_heightmap_texture [[5; 5]; [5; 5]] "N37W122")
             (scene_with_file "/srtm/N37W122.hgt" flat_tile)
     = Ok (mkImage "N37W122_height" 2 2
             [FNaN; FNum 0; FNum 0; FNum 1; FNaN; FNum 0; FNum 0; FNum 1;
              FNaN; FNum 0; FNum 0; FNum 1; FNaN; FNum 0; FNum 0; FNum 1]).
Proof.
  exact (flat_tile_divides_by_zero [[5; 5]; [5; 5]] 5 "N37W122"
           (scene_with_file "/srtm/N37W122.hgt" flat_tile)
           eq_refl eq_refl).
Defined.

(** As long as the elevation range fits in an [int16], the normalized grid
    lies in [0, 1] and takes both end values. *)
Theorem normalized_unit_interval_small_range (g : list (list Z))
    (lo hi : Z) :
  amin g = Ok lo ->
  amax g = Ok hi ->
  lo < hi ->
  hi - lo <= 32767 ->
  (forall x, In x (List.concat (heightmap_normalized g lo hi)) ->
             in_unit_interval x = true)
  /\ (exists x, In x (List.concat (heightmap_normalized g lo hi))
                /\ feqb x 0 = true)
  /\ (exists x, In x (List.concat (heightmap_normalized g lo hi))
                /\ feqb x 1 = true).
Proof.
  intros Hlo Hhi Hlt Hrange.
  apply amin_spec in Hlo as [Hlo_in Hlo].
  apply amax_spec in Hhi as [Hhi_in Hhi].
  rewrite concat_normalized.
  assert (sub_i16 hi lo = hi - lo) as Hd
    by (unfold sub_i16; apply wrap16_small; lia).
  rewrite Hd. repeat split.
  - intros x Hx. apply in_map_iff in Hx as (y & <- & Hy).
    specialize (Hlo y Hy). specialize (Hhi y Hy).
    unfold sub_i16. rewrite wrap16_small by lia.
    apply true_divide_unit; lia.
  - exists (true_divide (sub_i16 lo lo) (hi - lo)). split.
    + apply in_map_iff. now exists lo.
    + unfold sub_i16. rewrite Z.sub_diag. apply true_divide_zero. lia.
  - exists (true_divide (sub_i16 hi lo) (hi - lo)). split.
    + apply in_map_iff. now exists hi.
    + rewrite Hd. apply true_divide_same. lia.
Qed.

Example normalized_small_tile :
  heightmap_normalized [[10; 20]; [30; 50]] 10 50
  = [[FNum 0; FNum (1 # 4)]; [FNum (1 # 2); FNum 1]].
Proof. reflexivity. Qed.

(** C2 does not hold on the code: on a tile holding a void sample (-32768)
    next to samples 0 and 1 the two [int16] subtractions wrap around, the
    divisor becomes -32767, and the sample 0 is normalized to
    32768/32767, above 1; this is what the texture receives. *)
Theorem normalization_overflow_on_void_tile :
  let self := import_of "/srtm/N37W122.hgt" in
  let h := scene_with_file "/srtm/N37W122.hgt" void_tile in
  let g := [[-32768; 0]; [0; 1]] in
  outcome (read_heightmap "/srtm/N37W122.hgt") h = Ok g
  /\ amin g = Ok (-32768)
  /\ amax g = Ok 1
  /\ sub_i16 1 (-32768) = -32767
  /\ heightmap_normalized g (-32768) 1
     = [[FNum 0; FNum (32768 # 32767)]; [FNum (32768 # 32767); FNum 1]]
  /\ forallb (forallb in_unit_interval) (heightmap_normalized g (-32768) 1)
     = false
  /\ outcome (execute self) h = Ok FINISHED
  /\ map pixels (images (snd (execute self h)))
     = [[FNum 0; FNum 0; FNum 0; FNum 1;
         FNum (32768 # 32767); FNum 0; FNum 0; FNum 1;
         FNum (32768 # 32767); FNum 0; FNum 0; FNum 1;
         FNum 1; FNum 0; FNum 0; FNum 1]].
Proof. cbv zeta. repeat split; reflexivity. Qed.

End Normalization.

(** ** Where the normalized heightmap goes *)

Section NormalizedUse.

Lemma create_heightmap_texture_inv (g : list (list Z)) (name : string)
    (h : Host.state) (img : Image) :
  outcome (create_heightmap_texture g name) h = Ok img ->
  exists lo hi,
    amin g = Ok lo /\ amax g = Ok hi
    /\ pixels img
       = texture_pixels (List.length g) (heightmap_normalized g lo hi).
Proof.
  intros H.
  destruct (amin g) as [lo|e] eqn:Hlo.
  - destruct (amax g) as [hi|e] eqn:Hhi.
    + rewrite (create_heightmap_texture_run g name h lo hi Hlo Hhi) in H.
      injection H as <-. now exists lo, hi.
    + unfold outcome, create_heightmap_texture in H.
      rewrite (mbind_ok _ _ h h lo) in H by (unfold lift; now rewrite Hlo).
      erewrite mbind_raise in H by (unfold lift; now rewrite Hhi).
      discriminate H.
  - unfold outcome, create_heightmap_texture in H.
    erewrite mbind_raise in H by (unfold lift; now rewrite Hlo).
    discriminate H.
Qed.

(** C8, as the code has it: the normalized heightmap becomes the pixels of
    the height texture and nothing else; that texture is the image of the
    material's texture node, which feeds the displacement of the material
    output (displacement method DISPLACEMENT) and not its surface colour. *)
Theorem normalized_heightmap_use (g : list (list Z)) (name : string)
    (h : Host.state) (img : Image)
    (dem_min dem_max width height scale_z : R) (scheme : color_scheme) :
  outcome (create_heightmap_texture g name) h = Ok img ->
  (exists lo hi,
     amin g = Ok lo /\ amax g = Ok hi
     /\ pixels img
        = texture_pixels (List.length g) (heightmap_normalized g lo hi))
  /\ let m := terrain_material name img dem_min dem_max width height
                scale_z scheme in
     texture_image m = img
     /\ texture_drives_geometry m = true
     /\ texture_drives_colour m = false
     /\ displacement_method m = "DISPLACEMENT"%string.
Proof.
  intros H. split.
  - now apply (create_heightmap_texture_inv g name h).
  - cbv zeta. repeat split.
Qed.

Lemma normalized_heightmap_use_witness :
  let g := [[10; 20]; [30; 50]] in
  let img :=
    mkImage "N37W122_height" 2 2
      [FNum 0; FNum 0; FNum 0; FNum 1; FNum (1 # 4); FNum 0; FNum 0; FNum 1;
       FNum (1 # 2); FNum 0; FNum 0; FNum 1; FNum 1; FNum 0; FNum 0; FNum 1]
  in
  (exists lo hi,
     amin g = Ok lo /\ amax g = Ok hi
     /\ pixels img
        = texture_pixels (List.length g) (heightmap_normalized g lo hi))
  /\ let m := terrain_material "N37W122" img 10 50 1 1 1 scheme_default in
     texture_image m = img
     /\ texture_drives_geometry m = true
     /\ texture_drives_colour m = false
     /\ displacement_method m = "DISPLACEMENT"%string.
Proof.
  exact (normalized_heightmap_use [[10; 20]; [30; 50]] "N37W122"
           (scene_with_file "/srtm/N37W122.hgt" small_tile) _
           10 50 1 1 1 scheme_default eq_refl).
Defined.

(** C8, as stated, fails: after an import the plane's material holds the
    normalized heightmap in its texture, and that texture drives the
    displacement of the surface. *)
Lemma normalized_heightmap_displaces_geometry :
  let self := import_of "/srtm/N37W122.hgt" in
  let h := scene_with_file "/srtm/N37W122.hgt" small_tile in
  outcome (execute self) h = Ok FINISHED
  /\ option_map (fun m => pixels (texture_image m))
       (object_material (snd (execute self h)) 0)
     = Some [FNum 0; FNum 0; FNum 0; FNum 1;
             FNum (1 # 4); FNum 0; FNum 0; FNum 1;
             FNum (1 # 2); FNum 0; FNum 0; FNum 1;
             FNum 1; FNum 0; FNum 0; FNum 1]
  /\ option_map displacement_method
       (object_material (snd (execute self h)) 0)
     = Some "DISPLACEMENT"%string
  /\ option_map normalized_only_for_display
       (object_material (snd (execute self h)) 0)
     = Some false.
Proof. cbv zeta. repeat split; reflexivity. Qed.

End NormalizedUse.

(** * The import as a whole *)

(** ** Running the steps of [create_terrain_from_hgt] *)

Section ImportRun.

Lemma set_nth_last {A} (l : list A) (x : A) (f : A -> A) :
  set_nth (List.length l) f (l ++ [x]) = l ++ [f x].
Proof.
  unfold set_nth.
  rewrite firstn_app, firstn_all, Nat.sub_diag, app_nil_r.
  rewrite skipn_app, skipn_all, Nat.sub_diag. reflexivity.
Qed.

Lemma update_object_last fs sc (objs : list Object) (o : Object) a sel m im dm
    rp (f : Object -> Object) :
  update_object (List.length objs) f
    (mkHost fs sc (objs ++ [o]) a sel m im dm rp)
  = (Ok tt, mkHost fs sc (objs ++ [f o]) a sel m im dm rp).
Proof.
  unfold update_object, modify. cbn [files screens objects active_object
    selected mode images data_materials operator_reports].
  now rewrite set_nth_last.
Qed.

Lemma get_object_last fs sc (objs : list Object) (o : Object) a sel m im dm
    rp :
  get_object (List.length objs) (mkHost fs sc (objs ++ [o]) a sel m im dm rp)
  = (Ok o, mkHost fs sc (objs ++ [o]) a sel m im dm rp).
Proof.
  unfold get_object. cbn [objects]. now rewrite nth_middle.
Qed.

Lemma create_heightmap_texture_state (g : list (list Z)) (name : string)
    (h : Host.state) (lo hi : Z) :
  amin g = Ok lo ->
  amax g = Ok hi ->
  let img :=
    mkImage (name ++ "_height")%string
      (Z.of_nat (List.length g)) (Z.of_nat (List.length g))
      (texture_pixels (List.length g) (heightmap_normalized g lo hi)) in
  create_heightmap_texture g name h
  = (Ok img,
     mkHost (files h) (screens h) (objects h) (active_object h) (selected h)
            (mode h) (images h ++ [img]) (data_materials h)
            (operator_reports h)).
Proof.
  intros Hlo Hhi. cbv zeta. unfold create_heightmap_texture.
  rewrite (mbind_ok _ _ h h lo) by (unfold lift; now rewrite Hlo).
  rewrite (mbind_ok _ _ h h hi) by (unfold lift; now rewrite Hhi).
  reflexivity.
Qed.

(** The scene once lines 254-270 have run: the new plane is placed, scaled
    and subdivided, and has neither material nor custom property yet. *)
Lemma create_terrain_run_empty (filepath : string) (subdivisions : Z)
    (scale_z : R) (scheme : color_scheme) (h : Host.state)
    (bs : list byte) (g : list (list Z)) (lat lon : Z) (e : exn) :
  files h filepath = Some bs ->
  reshape (decode_i16 bs)
    (int_sqrt (Z.of_nat (List.length (decode_i16 bs))))
    (int_sqrt (Z.of_nat (List.length (decode_i16 bs)))) = Ok g ->
  tile_coordinates (Py.basename filepath) = Ok (lat, lon) ->
  amin g = Raise e ->
  let width := fst (get_tile_dimensions (IZR lat)) in
  let height := snd (get_tile_dimensions (IZR lat)) in
  create_terrain_from_hgt filepath subdivisions scale_z scheme h
  = (Raise e,
     mkHost (files h) (screens h)
       (objects h ++
        [mkObject (splitext_root (Py.basename filepath))
           (width * IZR lon)%R (height * IZR lat)%R width height
           [mkModifier "Subdivisions" "SUBSURF" "SIMPLE" 2 2]
           [subdivisions] [] []])
       (Some (List.length (objects h))) [List.length (objects h)] "OBJECT"
       (images h) (data_materials h) (operator_reports h)).
Proof.
  intros Hf Hg Hc Hlo. cbv zeta. unfold create_terrain_from_hgt.
  rewrite (mbind_ok _ _ h h g)
    by (rewrite (read_heightmap_run _ _ bs Hf); now rewrite Hg).
  rewrite (mbind_ok _ _ h h (lat, lon)) by (unfold lift; now rewrite Hc).
  cbv zeta. cbn [fst snd].
  erewrite mbind_ok by reflexivity.
  erewrite mbind_ok by apply update_object_last.
  erewrite mbind_ok by reflexivity.
  erewrite mbind_ok by apply update_object_last.
  erewrite mbind_ok by reflexivity.
  erewrite mbind_raise by (unfold lift; rewrite Hlo; reflexivity).
  reflexivity.
Qed.

(** The scene after a complete run. *)
Lemma create_terrain_run_ok (filepath : string) (subdivisions : Z)
    (scale_z : R) (scheme : color_scheme) (h : Host.state)
    (bs : list byte) (g : list (list Z)) (lat lon lo hi : Z) :
  files h filepath = Some bs ->
  reshape (decode_i16 bs)
    (int_sqrt (Z.of_nat (List.length (decode_i16 bs))))
    (int_sqrt (Z.of_nat (List.length (decode_i16 bs)))) = Ok g ->
  tile_coordinates (Py.basename filepath) = Ok (lat, lon) ->
  amin g = Ok lo ->
  amax g = Ok hi ->
  let width := fst (get_tile_dimensions (IZR lat)) in
  let height := snd (get_tile_dimensions (IZR lat)) in
  let name := splitext_root (Py.basename filepath) in
  let img :=
    mkImage (name ++ "_height")%string
      (Z.of_nat (List.length g)) (Z.of_nat (List.length g))
      (texture_pixels (List.length g) (heightmap_normalized g lo hi)) in
  let material :=
    terrain_material name img (IZR lo) (IZR hi) width height scale_z scheme in
  create_terrain_from_hgt filepath subdivisions scale_z scheme h
  = (Ok (List.length (objects h)),
     mkHost (files h) (screens h)
       (objects h ++
        [mkObject name
           (width * IZR lon)%R (height * IZR lat)%R width height
           [mkModifier "Subdivisions" "SUBSURF" "SIMPLE" 2 2]
           [subdivisions] [material]
           [("latitude", PInt lat); ("longitude", PInt lon);
            ("dem_min", PFloat (IZR lo)); ("dem_max", PFloat (IZR hi));
            ("tile_width", PFloat width);
            ("tile_height", PFloat height)]%string])
       (Some (List.length (objects h))) [List.length (objects h)] "OBJECT"
       (images h ++ [img]) (data_materials h ++ [material])
       (operator_reports h)).
Proof.
  intros Hf Hg Hc Hlo Hhi. cbv zeta. unfold create_terrain_from_hgt.
  rewrite (mbind_ok _ _ h h g)
    by (rewrite (read_heightmap_run _ _ bs Hf); now rewrite Hg).
  rewrite (mbind_ok _ _ h h (lat, lon)) by (unfold lift; now rewrite Hc).
  cbv zeta. cbn [fst snd].
  erewrite mbind_ok by reflexivity.
  erewrite mbind_ok by apply update_object_last.
  erewrite mbind_ok by reflexivity.
  erewrite mbind_ok by apply update_object_last.
  erewrite mbind_ok by reflexivity.
  erewrite mbind_ok by (unfold lift; rewrite Hlo; reflexivity).
  erewrite mbind_ok by (unfold lift; rewrite Hhi; reflexivity).
  erewrite mbind_ok by apply get_object_last.
  cbn [Host.name].
  erewrite mbind_ok
    by exact (create_heightmap_texture_state g _ _ lo hi Hlo Hhi).
  cbn [files screens objects active_object selected mode images
       data_materials operator_reports].
  erewrite mbind_ok by reflexivity.
  cbn [files screens objects active_object selected mode images
       data_materials operator_reports].
  do 7 (erewrite mbind_ok by apply update_object_last).
  reflexivity.
Qed.

Lemma create_terrain_run_nofile (filepath : string) (subdivisions : Z)
    (scale_z : R) (scheme : color_scheme) (h : Host.state) :
  files h filepath = None ->
  create_terrain_from_hgt filepath subdivisions scale_z scheme h
  = (Raise (FileNotFoundError filepath), h).
Proof.
  intros Hf. unfold create_terrain_from_hgt, read_heightmap.
  do 2 apply mbind_raise. unfold np_fromfile. now rewrite Hf.
Qed.

Lemma create_terrain_run_reshape (filepath : string) (subdivisions : Z)
    (scale_z : R) (scheme : color_scheme) (h : Host.state)
    (bs : list byte) (e : exn) :
  files h filepath = Some bs ->
  reshape (decode_i16 bs)
    (int_sqrt (Z.of_nat (List.length (decode_i16 bs))))
    (int_sqrt (Z.of_nat (List.length (decode_i16 bs)))) = Raise e ->
  create_terrain_from_hgt filepath subdivisions scale_z scheme h
  = (Raise e, h).
Proof.
  intros Hf He. unfold create_terrain_from_hgt.
  apply mbind_raise. rewrite (read_heightmap_run _ _ bs Hf). now rewrite He.
Qed.

Lemma create_terrain_run_name (filepath : string) (subdivisions : Z)
    (scale_z : R) (scheme : color_scheme) (h : Host.state)
    (bs : list byte) (g : list (list Z)) (e : exn) :
  files h filepath = Some bs ->
  reshape (decode_i16 bs)
    (int_sqrt (Z.of_nat (List.length (decode_i16 bs))))
    (int_sqrt (Z.of_nat (List.length (decode_i16 bs)))) = Ok g ->
  tile_coordinates (Py.basename filepath) = Raise e ->
  create_terrain_from_hgt filepath subdivisions scale_z scheme h
  = (Raise e, h).
Proof.
  intros Hf Hg Hc. unfold create_terrain_from_hgt.
  rewrite (mbind_ok _ _ h h g)
    by (rewrite (read_heightmap_run _ _ bs Hf); now rewrite Hg).
  apply mbind_raise. unfold lift. now rewrite Hc.
Qed.

Lemma amin_raise (g : list (list Z)) (e : exn) :
  amin g = Raise e ->
  List.concat g = [] /\ e = ValueError_zero_size "minimum".
Proof.
  unfold amin. destruct (List.concat g); [|discriminate].
  intros H; injection H as <-. now split.
Qed.

Lemma amin_ok_amax_ok (g : list (list Z)) (lo : Z) :
  amin g = Ok lo -> exists hi, amax g = Ok hi.
Proof.
  unfold amin, amax. destruct (List.concat g); [discriminate|].
  intros _. eexists. reflexivity.
Qed.

Lemma amin_amax_le (g : list (list Z)) (lo hi : Z) :
  amin g = Ok lo -> amax g = Ok hi -> lo <= hi.
Proof.
  intros Hlo Hhi. apply amin_spec in Hlo as [Hin _].
  apply amax_spec in Hhi as [_ Hhi]. now apply Hhi.
Qed.




End ImportRun.

(** ** What an import does to the scene *)

Section ImportBehaviour.

Lemma create_terrain_cases (filepath : string) (h : Host.state) :
  files h filepath = None
  \/ exists bs,
       files h filepath = Some bs
       /\ let data := decode_i16 bs in
          let size := int_sqrt (Z.of_nat (List.length data)) in
          (exists e, reshape data size size = Raise e)
          \/ exists g,
               reshape data size size = Ok g
               /\ ((exists e, tile_coordinates (Py.basename filepath) = Raise e)
                   \/ exists lat lon,
                        tile_coordinates (Py.basename filepath)
                        = Ok (lat, lon)
                        /\ ((exists e, amin g = Raise e)
                            \/ exists lo hi,
                                 amin g = Ok lo /\ amax g = Ok hi)).
Proof.
  destruct (files h filepath) as [bs|]; [right | now left].
  exists bs. split; [reflexivity|]. cbv zeta.
  destruct (reshape _ _ _) as [g|e]; [right | left; now exists e].
  exists g. split; [reflexivity|].
  destruct (tile_coordinates _) as [[lat lon]|e]; [right | left; now exists e].
  exists lat, lon. split; [reflexivity|].
  destruct (amin g) as [lo|e] eqn:Hlo; [right | left; now exists e].
  destruct (amin_ok_amax_ok g lo Hlo) as [hi Hhi]. now exists lo, hi.
Qed.

Lemma execute_run (self : ImportHGTDisplacementOperator) (h : Host.state) :
  execute self h
  = match create_terrain_from_hgt (op_filepath self) (op_subdivisions self)
            (op_scale_z self) (op_color_scheme self)
            (snd (setup_3d_views h)) with
    | (Ok i, s) =>
        (Ok FINISHED,
         mkHost (files s) (screens s) (objects s) (Some i) [i] (mode s)
                (images s) (data_materials s) (operator_reports s))
    | (Raise e, s) => (Raise e, s)
    end.
Proof.
  unfold execute.
  rewrite (mbind_ok _ _ h (snd (setup_3d_views h)) tt) by reflexivity.
  unfold mbind at 1.
  now destruct (create_terrain_from_hgt _ _ _ _ _) as [[i|e] s].
Qed.

Lemma load_run (filepath : string) (h : Host.state) :
  load filepath h
  = match create_terrain_from_hgt filepath 50 1 scheme_default h with
    | (Ok i, s) => (Ok FINISHED, s)
    | (Raise e, s) => (Raise e, s)
    end.
Proof.
  unfold load, mbind.
  now destruct (create_terrain_from_hgt _ _ _ _ _) as [[i|e] s].
Qed.

Lemma int_empty : Py.int "" = Raise (ValueError_int_literal "").
Proof. reflexivity. Qed.


Ltac import_cases filepath h :=
  let bs := fresh "bs" in
  let g := fresh "g" in
  let e := fresh "e" in
  let lat := fresh "lat" in
  let lon := fresh "lon" in
  let lo := fresh "lo" in
  let hi := fresh "hi" in
  let Hf := fresh "Hf" in
  let Hg := fresh "Hg" in
  let Hc := fresh "Hc" in
  let Hlo := fresh "Hlo" in
  let Hhi := fresh "Hhi" in
  destruct (create_terrain_cases filepath h)
    as [Hf | (bs & Hf & [[e Hg] | (g & Hg & [[e Hc] | (lat & lon & Hc &
         [[e Hlo] | (lo & hi & Hlo & Hhi)])])])];
  [ rewrite (create_terrain_run_nofile _ _ _ _ _ Hf) in *
  | rewrite (create_terrain_run_reshape _ _ _ _ _ _ _ Hf Hg) in *
  | rewrite (create_terrain_run_name _ _ _ _ _ _ _ _ Hf Hg Hc) in *
  | rewrite (create_terrain_run_empty _ _ _ _ _ _ _ _ _ _ Hf Hg Hc Hlo) in *
  | rewrite (create_terrain_run_ok _ _ _ _ _ _ _ _ _ _ _ Hf Hg Hc Hlo Hhi)
      in * ].



Lemma nth_error_last {A} (l : list A) (x : A) :
  nth_error (l ++ [x]) (List.length l) = Some x.
Proof. rewrite nth_error_app2, Nat.sub_diag by lia. reflexivity. Qed.

(** After a successful import the plane's custom properties read back the
    tile identity, the elevation range of the grid (minimum not above
    maximum) and the extent used for its scale; no other key is set. *)
Theorem import_custom_properties (self : ImportHGTDisplacementOperator)
    (h : Host.state) (r : operator_return) :
  outcome (execute self) h = Ok r ->
  let h' := snd (execute self h) in
  let plane := List.length (objects h) in
  exists g lat lon lo hi,
    outcome (read_heightmap (op_filepath self)) h = Ok g
    /\ tile_coordinates (Py.basename (op_filepath self)) = Ok (lat, lon)
    /\ amin g = Ok lo /\ amax g = Ok hi /\ lo <= hi
    /\ custom_property h' plane "latitude" = Some (PInt lat)
    /\ custom_property h' plane "longitude" = Some (PInt lon)
    /\ custom_property h' plane "dem_min" = Some (PFloat (IZR lo))
    /\ custom_property h' plane "dem_max" = Some (PFloat (IZR hi))
    /\ custom_property h' plane "tile_width"
       = Some (PFloat (fst (get_tile_dimensions (IZR lat))))
    /\ custom_property h' plane "tile_height"
       = Some (PFloat (snd (get_tile_dimensions (IZR lat))))
    /\ (forall key,
          ~ In key ["latitude"; "longitude"; "dem_min"; "dem_max";
                    "tile_width"; "tile_height"]%string ->
          custom_property h' plane key = None).
Proof.
  unfold outcome at 1. rewrite execute_run. intros H. cbv zeta.
  import_cases (op_filepath self) (snd (setup_3d_views h));
    try discriminate H.
  exists g, lat, lon, lo, hi.
  split; [rewrite (read_heightmap_unfold h _ bs Hf); exact Hg|].
  split; [exact Hc|]. split; [exact Hlo|]. split; [exact Hhi|].
  split; [exact (amin_amax_le g lo hi Hlo Hhi)|].
  unfold custom_property. cbn [snd objects].
  change (objects (snd (setup_3d_views h))) with (objects h).
  rewrite nth_error_last. cbn [props].
  repeat (split; [reflexivity|]).
  intros key Hkey. cbn [find fst option_map].
  repeat match goal with
  | |- context [String.eqb ?a key] =>
      destruct (String.eqb_spec a key) as [<-|_];
        [exfalso; apply Hkey; cbn; tauto|]
  end.
  reflexivity.
Qed.

Lemma import_custom_properties_witness :
  let self := import_of "/srtm/S33W070.hgt" in
  let h := scene_with_file "/srtm/S33W070.hgt" small_tile in
  let h' := snd (execute self h) in
  let plane := List.length (objects h) in
  exists g lat lon lo hi,
    outcome (read_heightmap (op_filepath self)) h = Ok g
    /\ tile_coordinates (Py.basename (op_filepath self)) = Ok (lat, lon)
    /\ amin g = Ok lo /\ amax g = Ok hi /\ lo <= hi
    /\ custom_property h' plane "latitude" = Some (PInt lat)
    /\ custom_property h' plane "longitude" = Some (PInt lon)
    /\ custom_property h' plane "dem_min" = Some (PFloat (IZR lo))
    /\ custom_property h' plane "dem_max" = Some (PFloat (IZR hi))
    /\ custom_property h' plane "tile_width"
       = Some (PFloat (fst (get_tile_dimensions (IZR lat))))
    /\ custom_property h' plane "tile_height"
       = Some (PFloat (snd (get_tile_dimensions (IZR lat))))
    /\ (forall key,
          ~ In key ["latitude"; "longitude"; "dem_min"; "dem_max";
                    "tile_width"; "tile_height"]%string ->
          custom_property h' plane key = None).
Proof.
  exact (import_custom_properties (import_of "/srtm/S33W070.hgt")
           (scene_with_file "/srtm/S33W070.hgt" small_tile) FINISHED
           eq_refl).
Defined.





(** An import that fails before the plane is made (missing file, sample
    count not a square, unparsable name) leaves the scene as the viewport
    set-up left it: no object, image or material is created and the
    selection is untouched. *)
Theorem failed_import_is_atomic (self : ImportHGTDisplacementOperator)
    (h : Host.state) (e : exn) :
  outcome (execute self) h = Raise e ->
  e <> ValueError_zero_size "minimum" ->
  snd (execute self h) = snd (setup_3d_views h).
Proof.
  unfold outcome. rewrite execute_run. intros H Hne.
  import_cases (op_filepath self) (snd (setup_3d_views h));
    try reflexivity; try discriminate H.
  exfalso. apply Hne. cbn [fst] in H. injection H as <-.
  now destruct (amin_raise g e0 Hlo).
Qed.

Lemma failed_import_is_atomic_witness :
  let self := import_of "/srtm/N37W122.hgt" in
  let h := scene_with_file "/srtm/N37W122.hgt" two_samples in
  snd (execute self h) = snd (setup_3d_views h).
Proof.
  exact (failed_import_is_atomic (import_of "/srtm/N37W122.hgt")
           (scene_with_file "/srtm/N37W122.hgt" two_samples)
           (ValueError_reshape 2 1 1) eq_refl ltac:(discriminate)).
Defined.







(** Dropping a file ([load]) and running the operator with its default
    settings end the same way and build the same objects, images and
    materials; only the operator also sets the viewport clip distances. *)
Theorem load_matches_execute (filepath : string) (h : Host.state) :
  let self := mkOperator filepath 50 1 scheme_default in
  outcome (load filepath) h = outcome (execute self) h
  /\ objects (snd (load filepath h)) = objects (snd (execute self h))
  /\ images (snd (load filepath h)) = images (snd (execute self h))
  /\ data_materials (snd (load filepath h))
     = data_materials (snd (execute self h))
  /\ active_object (snd (load filepath h))
     = active_object (snd (execute self h))
  /\ selected (snd (load filepath h)) = selected (snd (execute self h))
  /\ screens (snd (load filepath h)) = screens h
  /\ screens (snd (execute self h)) = screens (snd (setup_3d_views h)).
Proof.
  cbv zeta. unfold outcome. rewrite load_run, execute_run.
  cbn [op_filepath op_subdivisions op_scale_z op_color_scheme].
  destruct (create_terrain_cases filepath h)
    as [Hf | (bs & Hf & [[e Hg] | (g & Hg & [[e Hc] | (lat & lon & Hc &
         [[e Hlo] | (lo & hi & Hlo & Hhi)])])])].
  - rewrite (create_terrain_run_nofile _ _ _ _ h Hf),
      (create_terrain_run_nofile _ _ _ _ (snd (setup_3d_views h)) Hf).
    repeat split.
  - rewrite (create_terrain_run_reshape _ _ _ _ h _ _ Hf Hg),
      (create_terrain_run_reshape _ _ _ _ (snd (setup_3d_views h)) _ _ Hf Hg).
    repeat split.
  - rewrite (create_terrain_run_name _ _ _ _ h _ _ _ Hf Hg Hc),
      (create_terrain_run_name _ _ _ _ (snd (setup_3d_views h)) _ _ _
         Hf Hg Hc).
    repeat split.
  - rewrite (create_terrain_run_empty _ _ _ _ h _ _ _ _ _ Hf Hg Hc Hlo),
      (create_terrain_run_empty _ _ _ _ (snd (setup_3d_views h)) _ _ _ _ _
         Hf Hg Hc Hlo).
    repeat split.
  - rewrite (create_terrain_run_ok _ _ _ _ h _ _ _ _ _ _ Hf Hg Hc Hlo Hhi),
      (create_terrain_run_ok _ _ _ _ (snd (setup_3d_views h)) _ _ _ _ _ _
         Hf Hg Hc Hlo Hhi).
    repeat split.
Qed.

(** Only ['S'] and ['W'] are looked for: any other character in the
    hemisphere positions, lower-case letters included, leaves the sign
    positive, and whatever follows the seventh character is ignored. *)
Theorem tile_coordinates_ignores_letters (c0 d1 d2 c3 d4 d5 d6 : ascii)
    (rest : string) :
  forallb is_digit [d1; d2; d4; d5; d6] = true ->
  c0 <> "S"%char ->
  c3 <> "W"%char ->
  tile_coordinates
    (String c0 (String d1 (String d2
       (String c3 (String d4 (String d5 (String d6 rest)))))))
  = Ok (10 * digit_val d1 + digit_val d2,
        100 * digit_val d4 + 10 * digit_val d5 + digit_val d6).
Proof.
  intros Hall H0 H3. rewrite tile_coordinates_digits by assumption.
  apply Ascii.eqb_neq in H0, H3. now rewrite H0, H3.
Qed.

Lemma tile_coordinates_ignores_letters_witness :
  tile_coordinates "s33w070.tif" = Ok (33, 70).
Proof.
  exact (tile_coordinates_ignores_letters "s" "3" "3" "w" "0" "7" "0" ".tif"
           eq_refl ltac:(discriminate) ltac:(discriminate)).
Defined.




End ImportBehaviour.

(** ** More on the tile extent *)

Section TileExtent.
Local Open Scope R_scope.

(** The north-south extent is positive and the east-west extent never
    exceeds it in absolute value. *)
Theorem tile_extent_bounds (lat : R) :
  0 < snd (get_tile_dimensions lat)
  /\ Rabs (fst (get_tile_dimensions lat)) <= snd (get_tile_dimensions lat).
Proof. split; [apply ns_distance_pos | apply ew_le_ns]. Qed.

(** Strictly between the poles the east-west extent is positive, so the
    plane is never scaled to zero width there. *)
Theorem tile_extent_positive (lat : R) :
  -90 < lat < 90 -> 0 < fst (get_tile_dimensions lat).
Proof.
  intros [Hlo Hhi].
  pose proof (ns_distance_pos lat) as Hns.
  unfold get_tile_dimensions in *; cbn [fst snd] in *.
  apply Rmult_lt_0_compat; [exact Hns|].
  pose proof PI_RGT_0 as Hpi.
  apply cos_gt_0; unfold math_radians; nra.
Qed.

Lemma tile_extent_positive_witness : 0 < fst (get_tile_dimensions 45).
Proof. apply tile_extent_positive. split; lra. Defined.

Lemma ew_abs (lat : R) :
  fst (get_tile_dimensions lat) = fst (get_tile_dimensions (Rabs lat)).
Proof.
  unfold Rabs. destruct (Rcase_abs lat); [|reflexivity].
  unfold get_tile_dimensions; cbn [fst].
  now rewrite math_radians_opp, cos_neg.
Qed.

(** Tiles get narrower towards the poles: of two latitudes within 90
    degrees of the equator, the one farther from it has the smaller
    east-west extent. *)
Theorem tile_narrows_poleward (lat1 lat2 : R) :
  Rabs lat1 <= Rabs lat2 ->
  Rabs lat2 <= 90 ->
  fst (get_tile_dimensions lat2) <= fst (get_tile_dimensions lat1).
Proof.
  intros H12 H2. rewrite (ew_abs lat1), (ew_abs lat2).
  pose proof (Rabs_pos lat1) as H1.
  pose proof (ns_distance_pos (Rabs lat1)) as Hns.
  unfold get_tile_dimensions in *; cbn [fst snd] in *.
  apply Rmult_le_compat_l; [lra|].
  pose proof PI_RGT_0 as Hpi.
  apply cos_decr_1; unfold math_radians; nra.
Qed.

Lemma tile_narrows_poleward_witness :
  fst (get_tile_dimensions (-60)) <= fst (get_tile_dimensions 37).
Proof.
  apply tile_narrows_poleward.
  - rewrite Rabs_pos_eq by lra. rewrite Rabs_left by lra. lra.
  - rewrite Rabs_left by lra. lra.
Defined.

End TileExtent.

(** ** Samples, viewports, pixels *)

Section SamplesAndPixels.

Lemma div2_succ_succ (m : nat) : (S (S m) / 2 = S (m / 2))%nat.
Proof.
  replace (S (S m)) with (1 * 2 + m)%nat by lia.
  rewrite Nat.div_add_l by lia. lia.
Qed.

Lemma decode_i16_facts (n : nat) :
  forall bs,
    (List.length bs <= n)%nat ->
    List.length (decode_i16 bs) = (List.length bs / 2)%nat
    /\ Forall (fun v => -32768 <= v <= 32767) (decode_i16 bs).
Proof.
  induction n as [|n IH]; intros bs Hlen.
  - destruct bs; [now split | cbn in Hlen; lia].
  - destruct bs as [|b1 [|b2 rest]]; [now split | now split |].
    cbn [decode_i16 List.length] in *.
    destruct (IH rest ltac:(lia)) as [Hl Hr]. split.
    + now rewrite Hl, div2_succ_succ.
    + constructor; [apply be_i16_range | exact Hr].
Qed.

(** Reading a file gives one sample per whole pair of bytes, each within
    the [int16] range. *)
Theorem decode_i16_samples (bs : list byte) :
  List.length (decode_i16 bs) = (List.length bs / 2)%nat
  /\ Forall (fun v => -32768 <= v <= 32767) (decode_i16 bs).
Proof. now apply (decode_i16_facts (List.length bs)). Qed.

Lemma decode_i16_app_even (n : nat) :
  forall bs tail,
    (List.length bs <= n)%nat ->
    Nat.even (List.length bs) = true ->
    decode_i16 (bs ++ tail) = decode_i16 bs ++ decode_i16 tail.
Proof.
  induction n as [|n IH]; intros bs tail Hlen Hev.
  - destruct bs; [reflexivity | cbn in Hlen; lia].
  - destruct bs as [|b1 [|b2 rest]]; [reflexivity | discriminate Hev |].
    cbn [decode_i16 List.length app] in *.
    rewrite (IH rest tail) by (assumption || lia). reflexivity.
Qed.

(** A trailing odd byte is dropped without any error: the file reads like
    the one without it. *)
Theorem decode_i16_trailing_byte (bs : list byte) (b : byte) :
  Nat.even (List.length bs) = true ->
  decode_i16 (bs ++ [b]) = decode_i16 bs.
Proof.
  intros Hev.
  rewrite (decode_i16_app_even (List.length bs)) by (assumption || lia).
  apply app_nil_r.
Qed.

Lemma decode_i16_trailing_byte_witness :
  decode_i16 (small_tile ++ [xff]) = [10; 20; 30; 50].
Proof. exact (decode_i16_trailing_byte small_tile xff eq_refl). Defined.

(** Setting up the viewports twice is the same as doing it once, and after
    it every 3D space of every 3D area clips between 1 and 1000000. *)
Theorem setup_3d_views_idempotent (h : Host.state) :
  snd (setup_3d_views (snd (setup_3d_views h))) = snd (setup_3d_views h)
  /\ forall screen area space,
       In screen (screens (snd (setup_3d_views h))) ->
       In area (areas screen) ->
       In space (spaces area) ->
       area_type area = "VIEW_3D"%string ->
       space_type space = "VIEW_3D"%string ->
       clip_start space = 1%R /\ clip_end space = 1000000%R.
Proof.
  split.
  - unfold setup_3d_views, modify.
    cbn [snd files screens objects active_object selected mode images
         data_materials operator_reports].
    f_equal. rewrite map_map. apply map_ext. intros screen.
    cbn [areas]. f_equal. rewrite map_map. apply map_ext. intros area.
    destruct (String.eqb (area_type area) "VIEW_3D") eqn:Ea;
      cbn [area_type]; rewrite Ea; [|reflexivity].
    cbn [spaces]. f_equal. rewrite map_map. apply map_ext. intros space.
    destruct (String.eqb (space_type space) "VIEW_3D") eqn:Es;
      cbn [space_type]; now rewrite Es.
  - intros screen area space Hs Ha Hp Hat Hst.
    unfold setup_3d_views, modify in Hs. cbn [snd screens] in Hs.
    apply in_map_iff in Hs as (screen0 & <- & _). cbn [areas] in Ha.
    apply in_map_iff in Ha as (area0 & <- & _).
    destruct (String.eqb (area_type area0) "VIEW_3D") eqn:Ea.
    + cbn [spaces] in Hp. apply in_map_iff in Hp as (space0 & <- & _).
      destruct (String.eqb (space_type space0) "VIEW_3D") eqn:Es.
      * now split.
      * apply String.eqb_eq in Hst. congruence.
    + apply String.eqb_eq in Hat. congruence.
Qed.

Lemma map_nth_seq {A} (l : list A) (d : A) :
  map (fun i => nth i l d) (seq 0 (List.length l)) = l.
Proof.
  induction l as [|a l IH]; [reflexivity|].
  cbn [List.length seq map nth]. f_equal.
  rewrite <- seq_shift, map_map. exact IH.
Qed.

Lemma flat_map_nth_seq {A B} (f : A -> list B) (l : list A) (d : A) :
  flat_map (fun i => f (nth i l d)) (seq 0 (List.length l)) = flat_map f l.
Proof.
  rewrite !flat_map_concat_map.
  rewrite <- (map_nth_seq l d) at 2. now rewrite map_map.
Qed.

Lemma flat_map_concat_list {A B} (f : A -> list B) (l : list (list A)) :
  flat_map f (List.concat l) = flat_map (flat_map f) l.
Proof.
  induction l as [|row l IH]; [reflexivity|].
  cbn [List.concat flat_map]. now rewrite flat_map_app, IH.
Qed.

Lemma flat_map_agree {A B} (f g : A -> list B) (l : list A) :
  (forall a, In a l -> f a = g a) -> flat_map f l = flat_map g l.
Proof.
  induction l as [|a l IH]; intros H; [reflexivity|].
  cbn [flat_map]. rewrite (H a) by now left.
  rewrite IH; [reflexivity|]. intros b Hb. apply H. now right.
Qed.

(** On an n x n grid the pixel loop reads every entry exactly once, row by
    row, never outside the grid, and writes it as the red channel of an
    opaque pixel whose green and blue are 0. *)
Theorem texture_pixels_row_major (n : nat) (normalized : list (list float64)) :
  List.length normalized = n ->
  Forall (fun row => List.length row = n) normalized ->
  texture_pixels n normalized
  = flat_map (fun v => [v; FNum 0; FNum 0; FNum 1])
             (List.concat normalized).
Proof.
  intros Hn Hrows. unfold texture_pixels.
  rewrite flat_map_concat_list.
  rewrite <- (flat_map_nth_seq _ normalized []), Hn.
  apply flat_map_agree. intros y Hy. apply in_seq in Hy.
  assert (List.length (nth y normalized []) = n) as Hrow.
  { rewrite Forall_forall in Hrows. apply Hrows, nth_In. lia. }
  rewrite <- (flat_map_nth_seq _ (nth y normalized []) FNaN), Hrow.
  reflexivity.
Qed.

Lemma texture_pixels_row_major_witness :
  texture_pixels 2 [[FNum 0; FNum (1 # 4)]; [FNum (1 # 2); FNum 1]]
  = flat_map (fun v => [v; FNum 0; FNum 0; FNum 1])
             [FNum 0; FNum (1 # 4); FNum (1 # 2); FNum 1].
Proof.
  apply (texture_pixels_row_major 2
           [[FNum 0; FNum (1 # 4)]; [FNum (1 # 2); FNum 1]]).
  - reflexivity.
  - repeat constructor.
Defined.

End SamplesAndPixels.

(** ** More on normalization and on the material *)

Section NormalizationRange.

Lemma normalized_unit_interval_small_range_witness :
  let g := [[10; 20]; [30; 50]] in
  (forall x, In x (List.concat (heightmap_normalized g 10 50)) ->
             in_unit_interval x = true)
  /\ (exists x, In x (List.concat (heightmap_normalized g 10 50))
                /\ feqb x 0 = true)
  /\ (exists x, In x (List.concat (heightmap_normalized g 10 50))
                /\ feqb x 1 = true).
Proof.
  apply (normalized_unit_interval_small_range [[10; 20]; [30; 50]] 10 50).
  - reflexivity.
  - reflexivity.
  - lia.
  - lia.
Defined.

Lemma wrap16_nonzero (z : Z) : 0 < z < 65536 -> wrap16 z <> 0.
Proof.
  intros Hz. destruct (Z.lt_ge_cases z 32768) as [Hlt|Hge].
  - rewrite wrap16_small; lia.
  - unfold wrap16.
    replace (z + 32768) with (z - 32768 + 1 * 65536) by lia.
    rewrite Z.mod_add, Z.mod_small; lia.
Qed.

Lemma true_divide_finite (n d : Z) :
  d <> 0 -> is_finite (true_divide n d) = true.
Proof.
  intros Hd. unfold true_divide.
  destruct (Z.eqb_spec d 0); [contradiction | reflexivity].
Qed.

(** On a tile that is not flat the divisor is never zero, wrap-around or
    not: every normalized entry is a finite number, a minimum sample maps
    to 0 and a maximum sample to 1. *)
Theorem normalized_finite_unless_flat (g : list (list Z)) (lo hi : Z) :
  amin g = Ok lo ->
  amax g = Ok hi ->
  Forall (fun v => -32768 <= v <= 32767) (List.concat g) ->
  lo < hi ->
  sub_i16 hi lo <> 0
  /\ (forall x, In x (List.concat (heightmap_normalized g lo hi)) ->
                is_finite x = true)
  /\ (exists x, In x (List.concat (heightmap_normalized g lo hi))
                /\ feqb x 0 = true)
  /\ (exists x, In x (List.concat (heightmap_normalized g lo hi))
                /\ feqb x 1 = true).
Proof.
  intros Hlo Hhi Hrange Hlt.
  apply amin_spec in Hlo as [Hlo_in _].
  apply amax_spec in Hhi as [Hhi_in _].
  rewrite Forall_forall in Hrange.
  pose proof (Hrange lo Hlo_in). pose proof (Hrange hi Hhi_in).
  assert (sub_i16 hi lo <> 0) as Hd
    by (unfold sub_i16; apply wrap16_nonzero; lia).
  rewrite concat_normalized. split; [exact Hd|]. repeat split.
  - intros x Hx. apply in_map_iff in Hx as (y & <- & _).
    now apply true_divide_finite.
  - exists (true_divide (sub_i16 lo lo) (sub_i16 hi lo)). split.
    + apply in_map_iff. now exists lo.
    + unfold sub_i16 at 1. rewrite Z.sub_diag.
      now apply true_divide_zero.
  - exists (true_divide (sub_i16 hi lo) (sub_i16 hi lo)). split.
    + apply in_map_iff. now exists hi.
    + now apply true_divide_same.
Qed.

Lemma normalized_finite_unless_flat_witness :
  let g := [[-32768; 0]; [0; 1]] in
  sub_i16 1 (-32768) <> 0
  /\ (forall x, In x (List.concat (heightmap_normalized g (-32768) 1)) ->
                is_finite x = true)
  /\ (exists x, In x (List.concat (heightmap_normalized g (-32768) 1))
                /\ feqb x 0 = true)
  /\ (exists x, In x (List.concat (heightmap_normalized g (-32768) 1))
                /\ feqb x 1 = true).
Proof.
  apply (normalized_finite_unless_flat [[-32768; 0]; [0; 1]] (-32768) 1).
  - reflexivity.
  - reflexivity.
  - repeat constructor; lia.
  - lia.
Defined.

(** While the elevation range fits in an [int16], normalization keeps the
    order of the samples: a higher sample gets a higher (or equal) value. *)
Theorem normalized_order_small_range (g : list (list Z)) (lo hi a b : Z) :
  amin g = Ok lo ->
  amax g = Ok hi ->
  lo < hi ->
  hi - lo <= 32767 ->
  In a (List.concat g) ->
  In b (List.concat g) ->
  a <= b ->
  fleb (true_divide (sub_i16 a lo) (sub_i16 hi lo))
       (true_divide (sub_i16 b lo) (sub_i16 hi lo)) = true.
Proof.
  intros Hlo Hhi Hlt Hrange Ha Hb Hab.
  apply amin_spec in Hlo as [_ Hlo]. apply amax_spec in Hhi as [_ Hhi].
  pose proof (Hlo a Ha). pose proof (Hhi a Ha).
  pose proof (Hlo b Hb). pose proof (Hhi b Hb).
  unfold sub_i16. rewrite !wrap16_small by lia.
  unfold true_divide.
  destruct (Z.eqb_spec (hi - lo) 0) as [E|_]; [lia|].
  cbn [fleb]. apply Qle_bool_iff. rewrite !Qred_correct.
  unfold Qdiv. apply Qmult_le_compat_r.
  - rewrite <- Zle_Qle. lia.
  - apply Qinv_le_0_compat. change 0%Q with (inject_Z 0).
    rewrite <- Zle_Qle. lia.
Qed.

Lemma normalized_order_small_range_witness :
  fleb (true_divide (sub_i16 20 10) (sub_i16 50 10))
       (true_divide (sub_i16 30 10) (sub_i16 50 10)) = true.
Proof.
  apply (normalized_order_small_range [[10; 20]; [30; 50]] 10 50 20 30).
  - reflexivity.
  - reflexivity.
  - lia.
  - lia.
  - cbn. tauto.
  - cbn. tauto.
  - lia.
Defined.

(** Whatever the arguments, the material's graph is well formed: no input
    socket is linked twice and no node feeds itself.  Of the nodes that
    bring data in, the surface colour is fed by the geometry position and
    the two elevation bounds, the displacement by the height texture, the
    two elevation bounds and the vertical scale. *)
Theorem material_graph_shape (name : string) (height_texture : Image)
    (dem_min dem_max width height scale_z : R) (scheme : color_scheme) :
  let m := terrain_material name height_texture dem_min dem_max width
             height scale_z scheme in
  let inputs := [geometry; texture; value_min; value_max; value_scale_z] in
  List.length (links m) = 16%nat
  /\ distinct_targets (links m) = true
  /\ forallb (fun n => negb (feeds_itself (links m) n)) all_nodes = true
  /\ sources_of (links m) output (Named "Surface") inputs
     = [geometry; value_min; value_max]
  /\ sources_of (links m) output (Named "Displacement") inputs
     = [texture; value_min; value_max; value_scale_z].
Proof. cbv zeta. repeat split. Qed.

End NormalizationRange.
